(** * SingleStore HTTP API interface: a shallow embedding of
      [singlestore/http.py] (classes [Cursor] and [Connection]).

    Python objects are embedded as follows.
    - [str] is a list of Unicode code points ([N]); the predicates on
      characters ([isspace], decimal digits, matching without case) are
      Python's, over all code points (the table of decimal digits is
      that of Unicode 14.0, the one of CPython 3.11).
    - [int] is [Z].
    - A decoded JSON document is a value of [json].
    - [Connection] objects live in a store ([conns]) and are reached
      through references, since several cursors may share one connection;
      a [Cursor] is passed explicitly, nothing in the module aliases it.
    - A method is a computation in the state-and-exception monad [M]:
      it returns [Ok v] or [Raise e] together with the state reached at
      that point (the mutations made before a [raise] persist).
    - The HTTP transport, [urljoin], the column type resolver and the
      converter registry are not part of the module: they are the fields
      of the class [Env]. *)

From Stdlib Require Import ZArith NArith List Lia Decimal Strings.Byte.
From stdpp Require Import base gmap list.
From Equations Require Import Equations.
Import ListNotations.

Set Default Proof Using "Type".

(* ================================================================== *)
(** ** Strings and their literals *)
(* ================================================================== *)

(** A Python [str]: its code points. *)
Definition str : Type := list N.

(** A literal ["..."] of this file denotes the code points of the text
    between the quotes, which is read as UTF-8. *)
Module Literal.

Inductive text : Type :=
| tnil
| tcons (c : N) (t : text).

Fixpoint of_list (l : list N) : text :=
  match l with
  | [] => tnil
  | c :: l' => tcons c (of_list l')
  end.

Fixpoint decode (fuel : nat) (bs : list N) : list N :=
  match fuel with
  | O => []
  | S fuel' =>
      match bs with
      | [] => []
      | b :: rest =>
          if (b <? 128)%N then b :: decode fuel' rest
          else if (b <? 224)%N then
            match rest with
            | b1 :: rest' =>
                ((b - 192) * 64 + (b1 - 128))%N :: decode fuel' rest'
            | _ => [b]
            end
          else if (b <? 240)%N then
            match rest with
            | b1 :: b2 :: rest' =>
                ((b - 224) * 4096 + (b1 - 128) * 64 + (b2 - 128))%N
                  :: decode fuel' rest'
            | _ => [b]
            end
          else
            match rest with
            | b1 :: b2 :: b3 :: rest' =>
                ((b - 240) * 262144 + (b1 - 128) * 4096
                 + (b2 - 128) * 64 + (b3 - 128))%N :: decode fuel' rest'
            | _ => [b]
            end
      end
  end.

Definition parse (bs : list byte) : text :=
  of_list (decode (length bs) (map (fun b => N.of_nat (Byte.to_nat b)) bs)).

Definition encode (c : N) : list N :=
  if (c <? 128)%N then [c]
  else if (c <? 2048)%N then [192 + c / 64; 128 + c mod 64]%N
  else if (c <? 65536)%N then
    [224 + c / 4096; 128 + (c / 64) mod 64; 128 + c mod 64]%N
  else
    [240 + c / 262144; 128 + (c / 4096) mod 64; 128 + (c / 64) mod 64;
     128 + c mod 64]%N.

Fixpoint to_list (t : text) : list N :=
  match t with
  | tnil => []
  | tcons c t' => encode c ++ to_list t'
  end.

Fixpoint bytes (l : list N) : option (list byte) :=
  match l with
  | [] => Some []
  | n :: l' =>
      match Byte.of_nat (N.to_nat n), bytes l' with
      | Some b, Some bs => Some (b :: bs)
      | _, _ => None
      end
  end.

Definition print (t : text) : option (list byte) := bytes (to_list t).

End Literal.

Declare Scope str_scope.
Delimit Scope str_scope with str.
#[warnings="-via-type-mismatch,-via-type-remapping"]
String Notation str Literal.parse Literal.print
  (via Literal.text mapping [[nil] => Literal.tnil, [cons] => Literal.tcons])
  : str_scope.

Local Open Scope str_scope.
Local Open Scope Z_scope.
Local Open Scope list_scope.

(* ================================================================== *)
(** ** Python string methods *)
(* ================================================================== *)

Module PyStr.

(** [str.isspace] on one character.  [str.split()], [str.strip()] and
    the regular expression class [\s] all use this predicate. *)
Definition isspace (c : N) : bool :=
  (((9 <=? c) && (c <=? 13)) || ((28 <=? c) && (c <=? 32))
   || (c =? 133) || (c =? 160) || (c =? 5760)
   || ((8192 <=? c) && (c <=? 8202)) || (c =? 8232) || (c =? 8233)
   || (c =? 8239) || (c =? 8287) || (c =? 12288))%N.

(** Comparison of a character [k] of a pattern with a subject character
    [c] under [re.I], for [k] an ASCII character other than an
    upper-case letter: [c] is [k], or the upper-case form of the letter
    [k], or one of the four other characters that lower-case or fold to
    an ASCII letter (U+017F for s, U+212A for k, U+0130 and U+0131 for
    i). *)
Definition ci_eqb (k c : N) : bool :=
  ((c =? k)
   || ((97 <=? k) && (k <=? 122) && (c =? k - 32))
   || ((k =? 115) && (c =? 383))
   || ((k =? 107) && (c =? 8490))
   || ((k =? 105) && ((c =? 304) || (c =? 305))))%N.

(** [a == b] *)
Fixpoint eqb (a b : str) : bool :=
  match a, b with
  | [], [] => true
  | x :: a', y :: b' => (x =? y)%N && eqb a' b'
  | _, _ => false
  end.

(** [s.lstrip()] *)
Fixpoint lstrip (s : str) : str :=
  match s with
  | [] => []
  | c :: s' => if isspace c then lstrip s' else s
  end.

(** [s.rstrip()] *)
Fixpoint rstrip (s : str) : str :=
  match s with
  | [] => []
  | c :: s' =>
      match rstrip s' with
      | [] => if isspace c then [] else [c]
      | r => c :: r
      end
  end.

(** [s.strip()] *)
Definition strip (s : str) : str := lstrip (rstrip s).

(** [c in s] for a one-character string [c]. *)
Fixpoint contains (c : N) (s : str) : bool :=
  match s with
  | [] => false
  | x :: s' => (x =? c)%N || contains c s'
  end.

(** [s.split(sep, maxsplit)] for a one-character separator;
    [maxsplit = None] is the unbounded [s.split(sep)]. *)
Fixpoint split (sep : N) (maxsplit : option nat) (s : str) : list str :=
  match s with
  | [] => [[]]
  | c :: s' =>
      if (c =? sep)%N then
        match maxsplit with
        | Some O => [s]
        | Some (S n) => [] :: split sep (Some n) s'
        | None => [] :: split sep None s'
        end
      else
        match maxsplit with
        | Some O => [s]
        | _ =>
            match split sep maxsplit s' with
            | h :: t => (c :: h) :: t
            | [] => [[c]]
            end
        end
  end.

(** [s.split()]: the maximal runs of non-whitespace characters. *)
Fixpoint split_ws (s : str) : list str :=
  match s with
  | [] => []
  | c :: s' =>
      if isspace c then split_ws s'
      else
        match s' with
        | [] => [[c]]
        | c' :: _ =>
            if isspace c' then [c] :: split_ws s'
            else
              match split_ws s' with
              | h :: t => (c :: h) :: t
              | [] => [[c]]
              end
        end
  end.

(** [sep.join(l)] *)
Fixpoint join (sep : str) (l : list str) : str :=
  match l with
  | [] => []
  | [x] => x
  | x :: rest => x ++ sep ++ join sep rest
  end.

(** The decimal digits of a natural number, most significant first. *)
Fixpoint digits (d : Decimal.uint) : str :=
  match d with
  | Decimal.Nil => []
  | Decimal.D0 d' => 48%N :: digits d'
  | Decimal.D1 d' => 49%N :: digits d'
  | Decimal.D2 d' => 50%N :: digits d'
  | Decimal.D3 d' => 51%N :: digits d'
  | Decimal.D4 d' => 52%N :: digits d'
  | Decimal.D5 d' => 53%N :: digits d'
  | Decimal.D6 d' => 54%N :: digits d'
  | Decimal.D7 d' => 55%N :: digits d'
  | Decimal.D8 d' => 56%N :: digits d'
  | Decimal.D9 d' => 57%N :: digits d'
  end.

(** [str(n)] for an [int]. *)
Definition str_of_int (n : Z) : str :=
  match Z.to_int n with
  | Decimal.Pos d => digits d
  | Decimal.Neg d => 45%N :: digits d
  end.

(** The code points of the digit zero of each script: every character
    of the category Nd lies in a run of ten, in the order 0 to 9. *)
Definition digit_zeros : list N :=
  [48; 1632; 1776; 1984; 2406; 2534; 2662; 2790; 2918; 3046; 3174; 3302;
   3430; 3558; 3664; 3792; 3872; 4160; 4240; 6112; 6160; 6470; 6608;
   6784; 6800; 6992; 7088; 7232; 7248; 42528; 43216; 43264; 43472;
   43504; 43600; 44016; 65296; 66720; 68912; 69734; 69872; 69942; 70096;
   70384; 70736; 70864; 71248; 71360; 71472; 71904; 72016; 72784; 73040;
   73120; 92768; 92864; 93008; 120782; 120792; 120802; 120812; 120822;
   123200; 123632; 125264; 130032]%N.

(** The value of a decimal digit, as [int] reads it. *)
Definition digit_val (c : N) : option Z :=
  match find (fun z => (z <=? c) && (c <? z + 10))%N digit_zeros with
  | Some z => Some (Z.of_N (c - z))
  | None => None
  end.

(** The digits of an integer literal: decimal digits, with single
    underscores allowed between two digits.  [sep] tells that a digit
    must come next (at the start and after an underscore).  Returns the
    value and the number of digits read. *)
Fixpoint int_digits (acc : Z) (ndig : nat) (sep : bool) (s : str)
  : option (Z * nat) :=
  match s with
  | [] => if sep then None else Some (acc, ndig)
  | c :: s' =>
      match digit_val c with
      | Some d => int_digits (10 * acc + d) (S ndig) false s'
      | None =>
          if (c =? 95)%N && negb sep then int_digits acc ndig true s'
          else None
      end
  end.

(** The interpreter's default limit on the number of digits of a
    string converted to [int]. *)
Definition int_max_str_digits : nat := 4300.

(** [int(s)] for a string without surrounding whitespace; [None] is
    [ValueError]. *)
Definition int (s : str) : option Z :=
  let '(neg, body) :=
    match s with
    | 43%N :: r => (false, r)
    | 45%N :: r => (true, r)
    | _ => (false, s)
    end in
  match int_digits 0 0 true body with
  | Some (v, n) =>
      if (n <=? int_max_str_digits)%nat
      then Some (if neg then - v else v) else None
  | None => None
  end.

End PyStr.

(* ================================================================== *)
(** ** Regular expressions, as far as [re.match] is used *)
(* ================================================================== *)

Module Regex.

Inductive re : Type :=
| Void                         (* matches nothing *)
| Eps                          (* the empty string *)
| Cls (p : N -> bool)          (* one character of a class *)
| Seq (r1 r2 : re)
| Alt (r1 r2 : re)
| Star (r : re).

(** [r+] *)
Definition Plus (r : re) : re := Seq r (Star r).

(** A literal word under [re.I]. *)
Fixpoint word_ci (w : str) : re :=
  match w with
  | [] => Eps
  | c :: w' => Seq (Cls (PyStr.ci_eqb c)) (word_ci w')
  end.

Fixpoint nullable (r : re) : bool :=
  match r with
  | Void => false
  | Eps => true
  | Cls _ => false
  | Seq r1 r2 => nullable r1 && nullable r2
  | Alt r1 r2 => nullable r1 || nullable r2
  | Star _ => true
  end.

(** Brzozowski derivative: the expression for what may follow [c]. *)
Fixpoint deriv (c : N) (r : re) : re :=
  match r with
  | Void => Void
  | Eps => Void
  | Cls p => if p c then Eps else Void
  | Seq r1 r2 =>
      if nullable r1
      then Alt (Seq (deriv c r1) r2) (deriv c r2)
      else Seq (deriv c r1) r2
  | Alt r1 r2 => Alt (deriv c r1) (deriv c r2)
  | Star r1 => Seq (deriv c r1) (Star r1)
  end.

(** [re.match(r, s)] is not [None]: some prefix of [s] matches [r].
    The match is anchored at position 0, which is also all that a
    leading [^] asks for without [re.M]. *)
Fixpoint match_ (r : re) (s : str) : bool :=
  nullable r ||
  match s with
  | [] => false
  | c :: s' => match_ (deriv c r) s'
  end.

(** The strings of the language of an expression. *)
Inductive Matches : re -> str -> Prop :=
| MEps : Matches Eps []
| MCls p c : p c = true -> Matches (Cls p) [c]
| MSeq r1 r2 s1 s2 :
    Matches r1 s1 -> Matches r2 s2 -> Matches (Seq r1 r2) (s1 ++ s2)
| MAltL r1 r2 s : Matches r1 s -> Matches (Alt r1 r2) s
| MAltR r1 r2 s : Matches r2 s -> Matches (Alt r1 r2) s
| MStar0 r : Matches (Star r) []
| MStarS r s1 s2 :
    Matches r s1 -> Matches (Star r) s2 -> Matches (Star r) (s1 ++ s2).

End Regex.

(* ================================================================== *)
(** ** Exceptions and the method monad *)
(* ================================================================== *)

Inductive exn : Type :=
| InterfaceError (errno : Z) (errmsg : str)
| NotSupportedError (errno : Z) (errmsg : str)
| NotImplementedError
| StopIteration
| KeyError
| IndexError
| TypeError
| RuntimeError
| ValueError
| AttributeError
| JSONDecodeError        (* [res.json()] on a body that is not JSON *)
| RequestException       (* a failure of the HTTP transport *)
| ReferenceError.        (* a reference outside the store; no Python
                            program reaches it *)

Inductive result (A : Type) : Type :=
| Ok (a : A)
| Raise (e : exn).
Arguments Ok {A} a.
Arguments Raise {A} e.

(** The error raised on a closed cursor or connection. *)
Definition connection_closed : exn := InterfaceError 0 "connection is closed".

(** A method over a state [S]. *)
Definition M (S A : Type) : Type := S -> result A * S.

#[global] Instance M_ret {S} : MRet (M S) := fun A a s => (Ok a, s).

#[global] Instance M_bind {S} : MBind (M S) := fun A B f m s =>
  match m s with
  | (Ok a, s') => f a s'
  | (Raise e, s') => (Raise e, s')
  end.

Definition raise {S A} (e : exn) : M S A := fun s => (Raise e, s).

(** A pure computation that may raise. *)
Definition lift_result {S A} (r : result A) : M S A := fun s => (r, s).

(** [d[k]]-style lookups: [None] raises [e]. *)
Definition or_raise {S A} (e : exn) (o : option A) : M S A :=
  match o with
  | Some a => mret a
  | None => raise e
  end.

Definition inspect {A} (a : A) : {b : A | a = b} := exist _ a eq_refl.

(** The statement [with manager: body], for a manager whose [__exit__]
    returns [None]: [__enter__], the body, then [__exit__] whether the
    body has returned or raised; an exception of the body is raised
    again once [__exit__] has returned. *)
Definition with_ {S A B} (enter : M S B) (exit : M S unit) (body : M S A)
  : M S A :=
  fun s =>
    match enter s with
    | (Raise e, s1) => (Raise e, s1)
    | (Ok _, s1) =>
        match body s1 with
        | (Ok a, s2) =>
            match exit s2 with
            | (Ok _, s3) => (Ok a, s3)
            | (Raise e, s3) => (Raise e, s3)
            end
        | (Raise e, s2) =>
            match exit s2 with
            | (Ok _, s3) => (Raise e, s3)
            | (Raise e', s3) => (Raise e', s3)
            end
        end
    end.

(* ================================================================== *)
(** ** Decoded JSON and the Python operations applied to it *)
(* ================================================================== *)

#[warnings="-register-all"]
Inductive json : Type :=
| JNull
| JBool (b : bool)
| JInt (n : Z)
| JFloat (repr : str)
| JStr (s : str)
| JArr (items : list json)
| JObj (members : list (str * json)).

(** The result of an arithmetic operation: an [int], or the [float]
    that is the difference of the [float] written [repr] and an
    [int]. *)
Inductive number : Type :=
| NInt (n : Z)
| NFloatSub (repr : str) (k : Z).

Module PyJson.

(** The value bound to [k] in the [dict] decoded from the members of
    an object: a later member replaces an earlier one of the same
    name. *)
Fixpoint member (k : str) (ms : list (str * json)) : option json :=
  match ms with
  | [] => None
  | (k', v) :: rest =>
      match member k rest with
      | Some v' => Some v'
      | None => if PyStr.eqb k' k then Some v else None
      end
  end.

(** The keys of that [dict], in insertion order. *)
Fixpoint keys (seen : list str) (ms : list (str * json))
  : list str :=
  match ms with
  | [] => []
  | (k, _) :: rest =>
      if existsb (PyStr.eqb k) seen then keys seen rest
      else k :: keys (k :: seen) rest
  end.

Fixpoint chars (s : str) : list json :=
  match s with
  | [] => []
  | c :: s' => JStr (c :: []) :: chars s'
  end.

(** [o[k]] for a str key. *)
Definition getitem (o : json) (k : str) : result json :=
  match o with
  | JObj ms =>
      match member k ms with
      | Some v => Ok v
      | None => Raise KeyError
      end
  | _ => Raise TypeError
  end.

(** [o[0]] *)
Definition getitem0 (o : json) : result json :=
  match o with
  | JArr (x :: _) => Ok x
  | JArr [] => Raise IndexError
  | JStr (c :: _) => Ok (JStr (c :: []))
  | JStr [] => Raise IndexError
  | JObj _ => Raise KeyError
  | _ => Raise TypeError
  end.

(** [o.get(k, default)] *)
Definition get (o : json) (k : str) (default : json) : result json :=
  match o with
  | JObj ms =>
      match member k ms with
      | Some v => Ok v
      | None => Ok default
      end
  | _ => Raise AttributeError
  end.

(** The items that [iter(o)] yields. *)
Definition iter (o : json) : result (list json) :=
  match o with
  | JArr xs => Ok xs
  | JStr s => Ok (chars s)
  | JObj ms => Ok (map JStr (keys [] ms))
  | _ => Raise TypeError
  end.

(** [x - k] for an [int] [k]: an [int] when [x] is an [int] or a
    [bool], a [float] when [x] is one, and no number otherwise. *)
Definition sub_int (x : json) (k : Z) : result number :=
  match x with
  | JInt n => Ok (NInt (n - k))
  | JBool b => Ok (NInt ((if b then 1 else 0) - k))
  | JFloat r => Ok (NFloatSub r k)
  | _ => Raise TypeError
  end.

End PyJson.

(* ================================================================== *)
(** ** The HTTP transport and the other collaborators *)
(* ================================================================== *)

Inductive http_method : Type := GET | POST | DELETE.

(** What a [requests.Session] sends: the session's credentials and
    headers travel with every request made through it. *)
Record Request : Type := mkRequest {
  req_method : http_method;
  req_url : str;
  req_auth : option (str * str);
  req_headers : list (str * str);
  req_json : option json
}.

(** What the module reads of a [requests.Response]. *)
Record Response : Type := mkResponse {
  status_code : Z;
  text : str;
  body_json : option json          (* [None]: the body is not JSON *)
}.

Class Env (V : Type) : Type := {
  (** [urllib.parse.urljoin] *)
  urljoin : str -> str -> str;
  (** [types.ColumnType.get_name] *)
  get_name : json -> result str;
  (** [converters[name]]; [None] when the name is not registered *)
  converters : str -> option (json -> result V);
  (** The server and the network: the answer to the last request of a
      history of requests, or [None] when the transport fails. *)
  transport : list Request -> option Response
}.

(** [requests.Session]: the credentials and the headers set on it. *)
Record Session : Type := mkSession {
  auth : option (str * str);
  headers : list (str * str)
}.

(** A [Connection] object.  [_sess] is [None] once the connection is
    closed. *)
Record Connection : Type := mkConnection {
  _sess : option Session;
  _database : option str;
  _url : str;
  conn_messages : list (list json);
  autocommit : bool
}.

Definition set_sess (s : option Session) (c : Connection) : Connection :=
  mkConnection s (_database c) (_url c) (conn_messages c) (autocommit c).

(** The store of connection objects and the requests sent so far,
    oldest first. *)
Record World : Type := mkWorld {
  conns : gmap nat Connection;
  sent : list Request
}.

(** A row of the buffer: [execute] stores the rows as the server sent
    them and then replaces them one by one with converted tuples. *)
Inductive Row (V : Type) : Type :=
| Raw (j : json)
| Tuple (vs : list V).
Arguments Raw {V} j.
Arguments Tuple {V} vs.

(** [row is None]: a raw row that is the JSON [null] is Python's
    [None]; a tuple never is. *)
Definition row_is_none {V : Type} (row : Row V) : bool :=
  match row with
  | Raw JNull => true
  | _ => false
  end.

(** [(name, type_code, display_size, internal_size, precision, scale,
     null_ok, column_flags, ?)] *)
Definition ColumnDescriptor : Type :=
  json * str * option Z * option Z * option Z * option Z * json * Z * Z.

(** A [Cursor] object.  [connection] is [None] once the cursor is
    closed. *)
Record Cursor (V : Type) : Type := mkCursor {
  connection : option nat;
  _rows : list (Row V);
  description : option (list ColumnDescriptor);
  arraysize : Z;
  rowcount : json;
  messages : list (Z * str);
  lastrowid : option Z
}.
Arguments mkCursor {V}.
Arguments connection {V}.
Arguments _rows {V}.
Arguments description {V}.
Arguments arraysize {V}.
Arguments rowcount {V}.
Arguments messages {V}.
Arguments lastrowid {V}.

Definition set_connection {V} (x : option nat) (c : Cursor V) : Cursor V :=
  mkCursor x (_rows c) (description c) (arraysize c) (rowcount c)
    (messages c) (lastrowid c).

Definition set_rows {V} (x : list (Row V)) (c : Cursor V) : Cursor V :=
  mkCursor (connection c) x (description c) (arraysize c) (rowcount c)
    (messages c) (lastrowid c).

Definition set_description {V} (x : option (list ColumnDescriptor))
  (c : Cursor V) : Cursor V :=
  mkCursor (connection c) (_rows c) x (arraysize c) (rowcount c)
    (messages c) (lastrowid c).

Definition set_rowcount {V} (x : json) (c : Cursor V) : Cursor V :=
  mkCursor (connection c) (_rows c) (description c) (arraysize c) x
    (messages c) (lastrowid c).

(** The state of a cursor method: the cursor and the world. *)
Definition CState (V : Type) : Type := (Cursor V * World)%type.

(** A method of the world run from a cursor method. *)
Definition in_world {V A} (m : M World A) : M (CState V) A :=
  fun s => let '(r, w') := m s.2 in (r, (s.1, w')).

Definition get_cursor {V} : M (CState V) (Cursor V) :=
  fun s => (Ok s.1, s).

Definition modify_cursor {V} (f : Cursor V -> Cursor V) : M (CState V) unit :=
  fun s => (Ok tt, (f s.1, s.2)).

(** Unfolds the operations of the monad. *)
Ltac unfold_M :=
  unfold mbind, mret, M_bind, M_ret, raise, or_raise, lift_result,
    get_cursor, modify_cursor, in_world in *;
  cbn in *.

(** The same in one hypothesis. *)
Ltac unfold_M_in H :=
  unfold mbind, mret, M_bind, M_ret, raise, or_raise, lift_result,
    get_cursor, modify_cursor, in_world in H;
  cbn in H.

(* ================================================================== *)
(** ** class Connection *)
(* ================================================================== *)

Module Connection.
Section Methods.
Context {V : Type} `{!Env V}.

(** [self] dereferenced. *)
Definition deref (self : nat) : M World Connection :=
  fun w => match conns w !! self with
           | Some c => (Ok c, w)
           | None => (Raise ReferenceError, w)
           end.

(** An attribute assignment on [self]. *)
Definition update (self : nat) (f : Connection -> Connection) : M World unit :=
  fun w => (Ok tt, mkWorld (alter f self (conns w)) (sent w)).

(** [sess.get(url)], [sess.post(url, json=data)], [sess.delete(url)]:
    the request is sent with the session's credentials and headers. *)
Definition request (sess : Session) (m : http_method) (url : str)
  (data : option json) : M World Response :=
  fun w =>
    let rq := mkRequest m url (auth sess) (headers sess) data in
    let w' := mkWorld (conns w) (sent w ++ [rq]) in
    match transport (sent w') with
    | Some res => (Ok res, w')
    | None => (Raise RequestException, w')
    end.

(** [Connection(host, port, user, password, database, protocol, version)] *)
Definition __init__ (host : option str) (port : option Z)
  (user password database : option str) (protocol version : str)
  : M World nat :=
  fun w =>
    let host := match host with
                | Some h => if PyStr.eqb h "" then "localhost" else h
                | None => "localhost"
                end in
    let port := match port with
                | Some p => if (p =? 0)%Z then 3306 else p
                | None => 3306
                end in
    let auth := match user, password with
                | Some u, Some p => Some (u, p)
                | Some u, None => Some (u, "")
                | None, _ => None
                end in
    let sess := mkSession auth [("Content-Type", "application/json");
                                ("Accept", "application/json")] in
    let url := protocol ++ "://" ++ host ++ ":" ++ PyStr.str_of_int port
               ++ "/api/" ++ version ++ "/" in
    let self := fresh (dom (conns w)) in
    (Ok self,
     mkWorld (<[self := mkConnection (Some sess) database url [] true]>
                (conns w)) (sent w)).

Definition _get (self : nat) (path : str) : M World Response :=
  c ← deref self;
  match _sess c with
  | None => raise connection_closed
  | Some sess => request sess GET (urljoin (_url c) path) None
  end.

Definition _post (self : nat) (path : str) (data : json)
  : M World Response :=
  c ← deref self;
  match _sess c with
  | None => raise connection_closed
  | Some sess => request sess POST (urljoin (_url c) path) (Some data)
  end.

Definition _delete (self : nat) (path : str) : M World Response :=
  c ← deref self;
  match _sess c with
  | None => raise connection_closed
  | Some sess => request sess DELETE (urljoin (_url c) path) None
  end.

Definition close (self : nat) : M World unit :=
  update self (set_sess None).

Definition commit (self : nat) : M World unit :=
  c ← deref self;
  if autocommit c then mret tt
  else raise (NotSupportedError 0 "operation not supported").

Definition rollback (self : nat) : M World unit :=
  c ← deref self;
  if autocommit c then mret tt
  else raise (NotSupportedError 0 "operation not supported").

(** [Cursor(self)] *)
Definition cursor (self : nat) : Cursor V :=
  mkCursor (Some self) [] None 1000 (JInt 0) [] None.

(** The address probed by [is_connected]. *)
Definition ping_url (c : Connection) : str :=
  PyStr.join "/" (take 3 (PyStr.split 47%N None (_url c))) ++ "/ping".

Definition is_connected (self : nat) : M World bool :=
  c ← deref self;
  match _sess c with
  | None => mret false
  | Some sess =>
      res ← request sess GET (ping_url c) None;
      if (status_code res <=? 400)%Z && PyStr.eqb (text res) "pong"
      then mret true
      else mret false
  end.

Definition ping (self : nat) (reconnect : bool) : M World unit :=
  b ← is_connected self;
  if negb b
  then raise (InterfaceError 2006 "Could not connect to SingleStore database")
  else mret tt.

Definition __enter__ (self : nat) : M World nat := mret self.

Definition __exit__ (self : nat) : M World unit := close self.

End Methods.
End Connection.

(** [connect(host, port, user, password, database, protocol, version)] *)
Definition connect (host : option str) (port : option Z)
  (user password database : option str) (protocol version : str)
  : M World nat :=
  Connection.__init__ host port user password database protocol version.

(* ================================================================== *)
(** ** class Cursor *)
(* ================================================================== *)

#[global] Instance result_ret : MRet result := fun A a => Ok a.

#[global] Instance result_bind : MBind result := fun A B f r =>
  match r with
  | Ok a => f a
  | Raise e => Raise e
  end.

(** The pattern [r'^\s*(select|show)\s+'] compiled with [re.I]. *)
Definition query_re : Regex.re :=
  Regex.Seq (Regex.Star (Regex.Cls PyStr.isspace))
    (Regex.Seq (Regex.Alt (Regex.word_ci "select") (Regex.word_ci "show"))
       (Regex.Plus (Regex.Cls PyStr.isspace))).

(** A converter of the registry. *)
Definition Converter (V : Type) : Type := json -> result V.

Module Cursor.
Section Methods.
Context {V : Type} `{!Env V}.

Definition _get (path : str) : M (CState V) Response :=
  self ← get_cursor;
  match connection self with
  | None => raise connection_closed
  | Some c => in_world (Connection._get c path)
  end.

Definition _post (path : str) (data : json) : M (CState V) Response :=
  self ← get_cursor;
  match connection self with
  | None => raise connection_closed
  | Some c => in_world (Connection._post c path data)
  end.

Definition _delete (path : str) : M (CState V) Response :=
  self ← get_cursor;
  match connection self with
  | None => raise connection_closed
  | Some c => in_world (Connection._delete c path)
  end.

Definition callproc (name : str) (params : json) : M (CState V) unit :=
  raise NotImplementedError.

Definition close : M (CState V) unit :=
  self ← get_cursor;
  match connection self with
  | Some _ => modify_cursor (set_connection None)
  | None => mret tt
  end.

(** What one iteration of the loop over the columns computes before it
    appends: the converter of the column and its descriptor. *)
Definition column (item : json) : result (Converter V * ColumnDescriptor) :=
  data_type ← PyJson.getitem item "dataType";
  col_type ← get_name data_type;
  conv ← match converters col_type with
         | Some conv => Ok conv
         | None => Raise KeyError
         end;
  name ← PyJson.getitem item "name";
  nullable ← PyJson.get item "nullable" (JBool false);
  mret (conv, (name, col_type, None, None, None, None, nullable, 0, 0)).

(** The loop [for item in ...get('columns', [])] of [execute]. *)
Fixpoint describe (items : list json) (convs : list (Converter V))
  : M (CState V) (list (Converter V)) :=
  match items with
  | [] => mret convs
  | item :: rest =>
      cd ← lift_result (column item);
      self ← get_cursor;
      match description self with
      | Some d => modify_cursor (set_description (Some (d ++ [cd.2])))
      | None => raise AttributeError
      end;;
      describe rest (convs ++ [cd.1])
  end.

(** [tuple(x(y) for x, y in zip(convs, row))] *)
Definition convert_row (convs : list (Converter V)) (row : json)
  : result (list V) :=
  items ← PyJson.iter row;
  mapM (fun xy : Converter V * json => xy.1 xy.2) (zip convs items).

(** The loop [for i, row in enumerate(self._rows)] of [execute]. *)
Fixpoint convert_rows (convs : list (Converter V)) (i : nat)
  (rows : list json) : M (CState V) unit :=
  match rows with
  | [] => mret tt
  | row :: rest =>
      t ← lift_result (convert_row convs row);
      modify_cursor (fun c => set_rows (<[i := Tuple t]> (_rows c)) c);;
      convert_rows convs (S i) rest
  end.

(** [out['results'][0]] *)
Definition result0 (out : json) : result json :=
  results ← PyJson.getitem out "results";
  PyJson.getitem0 results.

(** The block [if res.status_code >= 400] of [execute], entered: every
    path raises. *)
Definition raise_for_status {A} (res : Response) : M (CState V) A :=
  if negb (PyStr.eqb (text res) "") then
    if PyStr.contains 58%N (text res) then
      match PyStr.split 58%N (Some 1%nat) (text res) with
      | [code; msg] =>
          tok ← or_raise IndexError (last (PyStr.split_ws code));
          icode ← or_raise ValueError (PyStr.int tok);
          raise (InterfaceError icode (PyStr.strip msg))
      | _ => raise ValueError
      end
    else
      raise (InterfaceError (status_code res) (PyStr.strip (text res)))
  else
    raise (InterfaceError (status_code res) "HTTP Error").

(** The rest of [execute], from [self.description = None] on.
    [rowcount] takes whatever value [rowsAffected] has.  The loop over
    [rows] runs over an array; over an empty string or object it has
    nothing to do, and [len] of it is 0; over a string with characters it
    converts the first one and then fails to assign ([TypeError]); over
    an object with members it converts the first key, stores the result
    under the key 0 and then finds the object changed ([RuntimeError]);
    nothing else can be enumerated ([TypeError]).  In the cases that
    raise, [_rows] holds an object that is not a list: the buffer of the
    model is left empty there. *)
Definition load (sql_type : str) (out : json) : M (CState V) unit :=
  modify_cursor (set_description None);;
  modify_cursor (set_rows []);;
  modify_cursor (set_rowcount (JInt 0));;
  if PyStr.eqb sql_type "query" then
    modify_cursor (set_description (Some []));;
    first ← lift_result (result0 out);
    columns ← lift_result (PyJson.get first "columns" (JArr []));
    items ← lift_result (PyJson.iter columns);
    convs ← describe items [];
    first ← lift_result (result0 out);
    rows ← lift_result (PyJson.getitem first "rows");
    match rows with
    | JArr rs =>
        modify_cursor (set_rows (map Raw rs));;
        convert_rows convs 0 rs;;
        self ← get_cursor;
        modify_cursor (set_rowcount (JInt (Z.of_nat (length (_rows self)))))
    | JStr [] | JObj [] => modify_cursor (set_rowcount (JInt 0))
    | JStr (ch :: _) =>
        lift_result (convert_row convs (JStr [ch]));;
        raise TypeError
    | JObj ((k, _) :: _) =>
        lift_result (convert_row convs (JStr k));;
        raise RuntimeError
    | _ => raise TypeError
    end
  else
    affected ← lift_result (PyJson.getitem out "rowsAffected");
    modify_cursor (set_rowcount affected).

(** The JSON body of the request of [execute]. *)
Definition request_data (database : option str) (query : str)
  (params : option json) : json :=
  JObj ([("sql", JStr query)]
        ++ match params with
           | Some p => [("args", p)]
           | None => []
           end
        ++ match database with
           | Some db =>
               if PyStr.eqb db "" then [] else [("database", JStr db)]
           | None => []
           end).

Definition execute (query : str) (params : option json)
  : M (CState V) unit :=
  self ← get_cursor;
  match connection self with
  | None => raise connection_closed
  | Some cref =>
      conn ← in_world (Connection.deref cref);
      let data := request_data (_database conn) query params in
      let sql_type :=
        if Regex.match_ query_re query then "query" else "exec" in
      res ← (if PyStr.eqb sql_type "query"
             then _post "query/tuples" data
             else _post "exec" data);
      if (400 <=? status_code res)%Z then raise_for_status res
      else
        out ← or_raise JSONDecodeError (body_json res);
        load sql_type out
  end.

(** The loop [for params in param_seq] of [executemany]. *)
Fixpoint execute_each (query : str) (param_seq : list json)
  : M (CState V) unit :=
  match param_seq with
  | [] => mret tt
  | params :: rest =>
      execute query (Some params);;
      execute_each query rest
  end.

Definition executemany (query : str) (param_seq : option (list json))
  : M (CState V) unit :=
  match param_seq with
  | Some ((_ :: _) as ps) => execute_each query ps
  | _ => execute query None
  end.

(** The result is [Some row] for a row taken from the buffer and [None]
    for the [None] returned when the buffer is empty; a caller that
    tests the result against [None] also has to look at the row taken
    ([row_is_none]). *)
Definition fetchone : M (CState V) (option (Row V)) :=
  self ← get_cursor;
  match _rows self with
  | row :: rest =>
      modify_cursor (set_rows rest);;
      mret (Some row)
  | [] =>
      modify_cursor (set_description None);;
      mret None
  end.

(** The loop [while size > 0] of [fetchmany].  [size] is the same in
    every iteration: the source does not change it in the loop.  The
    loop ends when [fetchone] returns [None], which it does for an
    empty buffer and also when the row it takes from the buffer is
    [None] itself.  Each iteration that continues has taken a row from
    the buffer. *)
Equations? fetchmany_loop (size : Z) (out : list (Row V)) (s : CState V)
  : result (list (Row V)) * CState V by wf (length (_rows s.1)) lt :=
  fetchmany_loop size out s with (0 <? size)%Z => {
    | false => (Ok out, s)
    | true with inspect (fetchone s) => {
        | exist _ (Ok None, s') _ => (Ok out, s')
        | exist _ (Ok (Some row), s') _ =>
            if row_is_none row then (Ok out, s')
            else fetchmany_loop size (out ++ [row]) s'
        | exist _ (Raise e, s') _ => (Raise e, s') } }.
Proof.
  destruct s as [c w]. unfold fetchone in e. unfold_M.
  destruct (_rows c) eqn:Hr; inversion e; subst. cbn. lia.
Qed.

Definition fetchmany (size : option Z) : M (CState V) (list (Row V)) :=
  self ← get_cursor;
  let size :=
    match size with
    | None => arraysize self
    | Some n => if (n =? 0)%Z || (n <=? 0)%Z then arraysize self else n
    end in
  fetchmany_loop size [].

(** The loop [while True] of [fetchall], which ends like the one of
    [fetchmany]. *)
Equations? fetchall_loop (out : list (Row V)) (s : CState V)
  : result (list (Row V)) * CState V by wf (length (_rows s.1)) lt :=
  fetchall_loop out s with inspect (fetchone s) => {
    | exist _ (Ok None, s') _ => (Ok out, s')
    | exist _ (Ok (Some row), s') _ =>
        if row_is_none row then (Ok out, s')
        else fetchall_loop (out ++ [row]) s'
    | exist _ (Raise e, s') _ => (Raise e, s') }.
Proof.
  destruct s as [c w]. unfold fetchone in e. unfold_M.
  destruct (_rows c) eqn:Hr; inversion e; subst. cbn. lia.
Qed.

Definition fetchall : M (CState V) (list (Row V)) := fetchall_loop [].

Definition nextset : M (CState V) (option bool) := raise NotImplementedError.

Definition setinputsizes (sizes : list Z) : M (CState V) unit := mret tt.

Definition setoutputsize (size : Z) (column : option str)
  : M (CState V) unit := mret tt.

Definition rownumber : M (CState V) number :=
  self ← get_cursor;
  lift_result (PyJson.sub_int (rowcount self)
                 (Z.of_nat (length (_rows self)))).

Definition scroll (value : Z) (mode : str) : M (CState V) unit :=
  raise (NotSupportedError 0 "scroll is not supported").

Definition next : M (CState V) (Row V) :=
  out ← fetchone;
  match out with
  | None => raise StopIteration
  | Some row => if row_is_none row then raise StopIteration else mret row
  end.

Definition is_connected : M (CState V) bool :=
  self ← get_cursor;
  match connection self with
  | None => mret false
  | Some c => in_world (Connection.is_connected c)
  end.

Definition __enter__ : M (CState V) unit := mret tt.

Definition __exit__ : M (CState V) unit := close.

End Methods.
End Cursor.

(* ================================================================== *)
(** ** Definitions used to state the properties *)
(* ================================================================== *)

(** [kw] removed from the front of [s], letters compared without case. *)
Fixpoint strip_prefix_ci (kw s : str) : option str :=
  match kw with
  | [] => Some s
  | k :: kw' =>
      match s with
      | [] => None
      | c :: s' =>
          if PyStr.ci_eqb k c then strip_prefix_ci kw' s' else None
      end
  end.

Definition followed_by_space (rest : option str) : bool :=
  match rest with
  | Some (c :: _) => PyStr.isspace c
  | _ => false
  end.

(** What the pattern of [execute] asks of a statement, in terms of the
    string methods: an intermediate form, between the matcher and the
    classification of the specification. *)
Definition pattern_unfolded (query : str) : bool :=
  let q := PyStr.lstrip query in
  followed_by_space (strip_prefix_ci "select" q)
  || followed_by_space (strip_prefix_ci "show" q).

(** The classification in the words of the specification, written
    without the string methods and the matcher of the model.

    The whitespace characters: the characters with the Unicode property
    White_Space and the four information separators U+001C to U+001F. *)
Definition whitespace : list N :=
  [9; 10; 11; 12; 13; 28; 29; 30; 31; 32; 133; 160; 5760; 8192; 8193; 8194;
   8195; 8196; 8197; 8198; 8199; 8200; 8201; 8202; 8232; 8233; 8239; 8287;
   12288]%N.

(** The keywords letter by letter: for each letter, the characters that
    are this letter when case is ignored, which are the small letter,
    the capital letter and, for s, the long s (U+017F), whose capital is
    S as well. *)
Definition select_ci : list str := ["sSſ"; "eE"; "lL"; "eE"; "cC"; "tT"].
Definition show_ci : list str := ["sSſ"; "hH"; "oO"; "wW"].

Definition one_of (cs : list N) (c : N) : bool := existsb (N.eqb c) cs.

(** [s] without its leading whitespace. *)
Fixpoint strip_whitespace (s : str) : str :=
  match s with
  | [] => []
  | c :: s' => if one_of whitespace c then strip_whitespace s' else s
  end.

(** What follows the keyword [kw] at the front of [s], if [s] begins
    with it. *)
Fixpoint strip_keyword (kw : list str) (s : str) : option str :=
  match kw, s with
  | [], _ => Some s
  | letter :: kw', c :: s' =>
      if one_of letter c then strip_keyword kw' s' else None
  | _ :: _, [] => None
  end.

Definition whitespace_next (rest : option str) : bool :=
  match rest with
  | Some (c :: _) => one_of whitespace c
  | _ => false
  end.

(** After stripping leading whitespace, the statement begins with
    [select] or [show], in any case, followed by whitespace. *)
Definition is_query_type (query : str) : bool :=
  let q := strip_whitespace query in
  whitespace_next (strip_keyword select_ci q)
  || whitespace_next (strip_keyword show_ci q).

(** The error of a response with status >= 400, in the words of the
    specification; [None] where they do not give one (the token before
    the colon is missing or is not an integer). *)
Definition spec_http_error (res : Response) : option exn :=
  if PyStr.eqb (text res) "" then
    Some (InterfaceError (status_code res) "HTTP Error")
  else if PyStr.contains 58%N (text res) then
    match PyStr.split 58%N (Some 1%nat) (text res) with
    | [code; msg] =>
        match last (PyStr.split_ws code) with
        | Some tok =>
            match PyStr.int tok with
            | Some icode => Some (InterfaceError icode (PyStr.strip msg))
            | None => None
            end
        | None => None
        end
    | _ => None
    end
  else Some (InterfaceError (status_code res) (text res)).

(** Every character of [s] is whitespace. *)
Fixpoint all_space (s : str) : bool :=
  match s with
  | [] => true
  | c :: s' => PyStr.isspace c && all_space s'
  end.

(** The tag [execute] gives a statement. *)
Definition sql_type_of (query : str) : str :=
  if Regex.match_ query_re query then "query" else "exec".

Section Statements.
Context {V : Type} `{!Env V}.

(** The path [execute] posts a statement to. *)
Definition endpoint (query : str) : str :=
  if Regex.match_ query_re query then "query/tuples" else "exec".

(** The request [execute] sends through an open connection. *)
Definition request_of (conn : Connection) (sess : Session) (query : str)
  (params : option json) : Request :=
  mkRequest POST (urljoin (_url conn) (endpoint query))
    (auth sess) (headers sess)
    (Some (Cursor.request_data (_database conn) query params)).

(** The world once [rq] has been sent. *)
Definition after_request (rq : Request) (w : World) : World :=
  mkWorld (conns w) (sent w ++ [rq]).

(** Cursor [c] is bound to the connection [conn] of world [w], which is
    open with session [sess]. *)
Definition opened (c : Cursor V) (w : World) (conn : Connection)
  (sess : Session) : Prop :=
  ∃ r, connection c = Some r ∧ conns w !! r = Some conn ∧
       _sess conn = Some sess.

(** [execute(query, params)] on cursor [c] in world [w] reaches the
    server through [conn] and is answered by [res]. *)
Definition answered (query : str) (params : option json) (c : Cursor V)
  (w : World) (conn : Connection) (sess : Session) (res : Response) : Prop :=
  opened c w conn sess ∧
  transport (sent w ++ [request_of conn sess query params]) = Some res.

(** [fetchone()] called [n] times in a row; the results in order. *)
Fixpoint fetchone_times (n : nat) : M (CState V) (list (option (Row V))) :=
  match n with
  | O => mret []
  | S k =>
      r ← Cursor.fetchone;
      rs ← fetchone_times k;
      mret (r :: rs)
  end.

(** A cursor whose buffer was found empty by [fetchone]. *)
Definition drained (c : Cursor V) : Cursor V :=
  set_description None (set_rows [] c).

(** The rows that the member [rows] of a response holds when the loop
    of [execute] over it completes: the items of an array, and none for
    an empty string or an empty object. *)
Definition rows_of (rows : json) : option (list json) :=
  match rows with
  | JArr rs => Some rs
  | JStr [] | JObj [] => Some []
  | _ => None
  end.

(** The rows of a buffer that come before its first [None] row. *)
Fixpoint until_none (rows : list (Row V)) : list (Row V) :=
  match rows with
  | [] => []
  | row :: rest => if row_is_none row then [] else row :: until_none rest
  end.

(** The rows of a buffer that come after its first [None] row, if it
    has one. *)
Fixpoint after_none (rows : list (Row V)) : option (list (Row V)) :=
  match rows with
  | [] => None
  | row :: rest => if row_is_none row then Some rest else after_none rest
  end.

(** A cursor whose buffer was read to its end or to its first [None]
    row by repeated [fetchone]. *)
Definition fetched (c : Cursor V) : Cursor V :=
  match after_none (_rows c) with
  | Some rest => set_rows rest c
  | None => drained c
  end.

(** The size [fetchmany] works with. *)
Definition effective_size (size : option Z) (c : Cursor V) : Z :=
  match size with
  | None => arraysize c
  | Some n => if (n =? 0) || (n <=? 0) then arraysize c else n
  end.

(** [d] is the descriptor [execute] builds for the column [item]: its
    name, the name of its type, four fields left to [None], its
    [nullable] member or [False], and two zeros. *)
Definition describes (item : json) (d : ColumnDescriptor) : Prop :=
  ∃ ms data_type col_type name,
    item = JObj ms ∧
    PyJson.member "dataType" ms = Some data_type ∧
    get_name data_type = Ok col_type ∧
    PyJson.member "name" ms = Some name ∧
    d = (name, col_type, None, None, None, None,
         default (JBool false) (PyJson.member "nullable" ms), 0, 0).

(** The request [is_connected] sends through an open connection. *)
Definition ping_request (conn : Connection) (sess : Session) : Request :=
  mkRequest GET (Connection.ping_url conn) (auth sess) (headers sess) None.

(** The answer of [is_connected] to a response. *)
Definition is_pong (res : Response) : bool :=
  (status_code res <=? 400) && PyStr.eqb (text res) "pong".

(** The cursor as [execute] leaves it before it reads the response. *)
Definition reset (c : Cursor V) : Cursor V :=
  set_rowcount (JInt 0) (set_rows [] (set_description None c)).

(** [c'] has the connection reference, [arraysize], [messages] and
    [lastrowid] of [c]. *)
Definition same_settings (c c' : Cursor V) : Prop :=
  connection c' = connection c ∧ arraysize c' = arraysize c ∧
  messages c' = messages c ∧ lastrowid c' = lastrowid c.

(** Python's [x or d] for an optional [x] with falsy value [zero]. *)
Definition py_or {A} (is_zero : A -> bool) (x : option A) (d : A) : A :=
  match x with
  | Some a => if is_zero a then d else a
  | None => d
  end.

(** The headers the constructor sets on the session. *)
Definition json_headers : list (str * str) :=
  [("Content-Type", "application/json"); ("Accept", "application/json")].


(** The credentials the constructor sets on the session. *)
Definition credentials (user password : option str)
  : option (str * str) :=
  match user with
  | Some u => Some (u, default "" password)
  | None => None
  end.

End Statements.

(* ================================================================== *)
(** ** A small server, to run the methods on concrete inputs *)
(* ================================================================== *)

Module Demo.

(** The answer to a request, by its statement. *)
Definition answer (rq : Request) : option Response :=
  match req_method rq, req_json rq with
  | GET, _ => Some (mkResponse 200 "pong" None)
  | _, Some (JObj (("sql", JStr "select a from t") :: _)) =>
      Some (mkResponse 200 ""
              (Some (JObj [("results",
                 JArr [JObj [("columns",
                               JArr [JObj [("name", JStr "a");
                                           ("dataType", JStr "INT")]]);
                             ("rows",
                               JArr [JArr [JInt 1]; JArr [JInt 2];
                                     JArr [JInt 3]])]])])))
  | _, Some (JObj (("sql", JStr "select a from x") :: _)) =>
      Some (mkResponse 400 "1146: Table 'x' doesn't exist" None)
  | _, Some (JObj (("sql", JStr "select a from y") :: _)) =>
      Some (mkResponse 503 "Service Unavailable " None)
  | _, Some (JObj (("sql", JStr "select a from z") :: _)) =>
      Some (mkResponse 500 "" None)
  | _, Some (JObj (("sql", JStr "select a from u") :: _)) =>
      Some (mkResponse 200 ""
              (Some (JObj [("results",
                 JArr [JObj [("columns",
                               JArr [JObj [("name", JStr "a");
                                           ("dataType", JStr "INT")]]);
                             ("rows",
                               JArr [JArr [JInt 1]; JNull;
                                     JArr [JInt 2]])]])])))
  | _, Some (JObj (("sql", JStr "select a from e") :: _)) =>
      Some (mkResponse 200 ""
              (Some (JObj [("results",
                 JArr [JObj [("columns",
                               JArr [JObj [("name", JStr "a");
                                           ("dataType", JStr "INT")]]);
                             ("rows", JStr "")]])])))
  | _, Some (JObj (("sql", JStr "delete from t") :: _)) =>
      Some (mkResponse 200 "" (Some (JObj [("rowsAffected", JStr "3")])))
  | _, _ => Some (mkResponse 200 "" (Some (JObj [("rowsAffected", JInt 7)])))
  end.

#[global] Instance env : Env json := {|
  urljoin := (@app N);
  get_name := fun j => match j with
                       | JStr s => Ok s
                       | _ => Raise ValueError
                       end;
  converters := fun name =>
    if PyStr.eqb name "INT" then Some (fun j => Ok j) else None;
  transport := fun history =>
    match last history with
    | Some rq => answer rq
    | None => None
    end
|}.

Definition session : Session :=
  mkSession (Some ("user", "secret"))
    [("Content-Type", "application/json"); ("Accept", "application/json")].

Definition conn : Connection :=
  mkConnection (Some session) None "http://localhost:3306/api/v1/" [] true.

(** One open connection, at reference 0; nothing sent yet. *)
Definition world : World := mkWorld {[ 0%nat := conn ]} [].

(** A fresh cursor on it. *)
Definition cur : Cursor json := Connection.cursor 0%nat.

(** The same cursor holding three rows. *)
Definition cur3 : Cursor json :=
  mkCursor (Some 0%nat) [Tuple [JInt 1]; Tuple [JInt 2]; Tuple [JInt 3]]
    (Some [(JStr "a", "INT", None, None, None, None, JBool false, 0, 0)])
    1000 (JInt 3) [] None.

(** The same cursor as a query leaves it when the conversion of its
    rows stops at a second row that is [null]. *)
Definition cur_null : Cursor json :=
  mkCursor (Some 0%nat) [Tuple [JInt 1]; Raw JNull; Raw (JArr [JInt 2])]
    (Some [(JStr "a", "INT", None, None, None, None, JBool false, 0, 0)])
    1000 (JInt 0) [] None.

End Demo.

(** A server whose answers are never JSON, and a cursor that fetches
    nothing at a time. *)
Module Plain.

Definition env : Env json := {|
  urljoin := (@app N);
  get_name := fun _ => Raise KeyError;
  converters := fun _ => None;
  transport := fun _ => Some (mkResponse 200 "OK" None)
|}.

(** A cursor with one row and [arraysize] set to 0. *)
Definition cur0 : Cursor json :=
  mkCursor (Some 0%nat) [Tuple [JInt 1]] None 0 (JInt 1) [] None.

End Plain.

(* ================================================================== *)
(** ** Properties of the str methods *)
(* ================================================================== *)

Lemma PyStr_eqb_eq (a b : str) : PyStr.eqb a b = true <-> a = b.
Proof.
  revert b. induction a as [|x a IH]; intros [|y b]; cbn; try (split; done).
  rewrite andb_true_iff, N.eqb_eq, IH. split.
  - intros [-> ->]. reflexivity.
  - intros [= -> ->]. done.
Qed.

Lemma PyStr_eqb_refl (a : str) : PyStr.eqb a a = true.
Proof. apply PyStr_eqb_eq. reflexivity. Qed.

Lemma PyStr_eqb_neq (a b : str) : PyStr.eqb a b = false <-> a <> b.
Proof.
  rewrite <- PyStr_eqb_eq. destruct (PyStr.eqb a b); split; congruence.
Qed.

Lemma app_cons (c : N) (a b : str) : (c :: a) ++ b = c :: (a ++ b).
Proof. reflexivity. Qed.

Lemma app_empty_r (a : str) : a ++ "" = a.
Proof. induction a as [|c a IH]; [reflexivity|]. rewrite ?app_cons, IH. reflexivity. Qed.

Lemma app_assoc_s (a b c : str) : (a ++ b) ++ c = a ++ b ++ c.
Proof. induction a as [|x a IH]; [reflexivity|]. rewrite ?app_cons, IH. reflexivity. Qed.

Lemma contains_app c a b :
  PyStr.contains c (a ++ b) = PyStr.contains c a || PyStr.contains c b.
Proof.
  induction a as [|x a IH]; [reflexivity|].
  rewrite ?app_cons. cbn. rewrite IH. apply orb_assoc.
Qed.

Lemma split_zero sep s : PyStr.split sep (Some O) s = [s].
Proof. destruct s as [|c s]; [reflexivity|]. cbn. destruct (N.eqb c sep); reflexivity. Qed.

Lemma split_first sep a b :
  PyStr.contains sep a = false ->
  PyStr.split sep (Some 1%nat) (a ++ sep :: b) = [a; b].
Proof.
  induction a as [|c a IH]; intros H.
  - change ("" ++ sep :: b) with (sep :: b). cbn.
    rewrite N.eqb_refl, split_zero. reflexivity.
  - cbn in H. apply orb_false_elim in H as [Hc Ha].
    rewrite ?app_cons. cbn. rewrite Hc, (IH Ha). reflexivity.
Qed.

Lemma split_head sep a b :
  PyStr.contains sep a = false ->
  PyStr.split sep None (a ++ sep :: b) = a :: PyStr.split sep None b.
Proof.
  induction a as [|c a IH]; intros H.
  - change ("" ++ sep :: b) with (sep :: b). cbn.
    rewrite N.eqb_refl. reflexivity.
  - cbn in H. apply orb_false_elim in H as [Hc Ha].
    rewrite ?app_cons. cbn. rewrite Hc, (IH Ha). reflexivity.
Qed.

Lemma contains_digits d : PyStr.contains 47%N (PyStr.digits d) = false.
Proof. induction d; cbn; auto. Qed.

Lemma contains_str_of_int n : PyStr.contains 47%N (PyStr.str_of_int n) = false.
Proof.
  unfold PyStr.str_of_int.
  destruct (Z.to_int n) as [d|d]; cbn; auto using contains_digits.
Qed.

(** The address probed for a base URL built by the constructor. *)
Lemma ping_url_of_base (c : Connection) protocol host port version :
  _url c = protocol ++ "://" ++ host ++ ":" ++ PyStr.str_of_int port
           ++ "/api/" ++ version ++ "/" ->
  PyStr.contains 47%N protocol = false ->
  PyStr.contains 47%N host = false ->
  Connection.ping_url c =
  protocol ++ "://" ++ host ++ ":" ++ PyStr.str_of_int port ++ "/ping".
Proof.
  intros Hu Hp Hh. unfold Connection.ping_url. rewrite Hu.
  set (hp := host ++ ":" ++ PyStr.str_of_int port).
  assert (Hhp : PyStr.contains 47%N hp = false).
  { unfold hp. rewrite !contains_app, Hh, contains_str_of_int. reflexivity. }
  replace (protocol ++ "://" ++ host ++ ":" ++ PyStr.str_of_int port
           ++ "/api/" ++ version ++ "/")
    with ((protocol ++ ":") ++ 47%N :: (47%N ::
            (hp ++ 47%N :: ("api/" ++ version ++ "/")))).
  2:{ unfold hp. rewrite !app_assoc_s. reflexivity. }
  rewrite split_head by (rewrite contains_app, Hp; reflexivity).
  cbn [PyStr.split]. rewrite N.eqb_refl.
  rewrite split_head by exact Hhp.
  rewrite !firstn_cons, firstn_O. cbn [PyStr.join].
  unfold hp. rewrite !app_assoc_s. reflexivity.
Qed.

(** The constructor stores an open connection whose base URL has the
    shape this lemma asks for, under a fresh reference. *)
Lemma init_url host port user password database protocol version w :
  ∃ r conn h p,
    Connection.__init__ host port user password database protocol version w
    = (Ok r, mkWorld (<[r := conn]> (conns w)) (sent w)) ∧
    conns w !! r = None ∧
    _url conn = protocol ++ "://" ++ h ++ ":" ++ PyStr.str_of_int p
                ++ "/api/" ++ version ++ "/" ∧
    is_Some (_sess conn) ∧ autocommit conn = true.
Proof.
  eexists _, _, _, _. split; [reflexivity|]. split.
  - apply not_elem_of_dom, is_fresh.
  - cbn. split; [reflexivity|]. split; [eexists; reflexivity|reflexivity].
Qed.

Lemma app_eq_empty (a b : str) : a ++ b = "" -> a = "" ∧ b = "".
Proof. destruct a; [cbn; auto|discriminate]. Qed.

Lemma app_eq_cons (a b : str) c s :
  a ++ b = c :: s ->
  (a = "" ∧ b = c :: s) ∨ (∃ a', a = c :: a' ∧ s = a' ++ b).
Proof.
  destruct a as [|x a]; [left; auto|].
  rewrite ?app_cons. intros [= -> <-]. right. eauto.
Qed.


(* ================================================================== *)
(** ** Properties of the matcher and of the pattern of [execute] *)
(* ================================================================== *)

Import Regex.

Lemma nullable_Matches r : nullable r = true <-> Matches r "".
Proof.
  split.
  - induction r; cbn; intros H; try discriminate.
    + constructor.
    + apply andb_prop in H as [H1 H2]. change (@nil N) with (@nil N ++ @nil N).
      constructor; auto.
    + apply orb_prop in H as [H|H]; [apply MAltL|apply MAltR]; auto.
    + constructor.
  - intros H. remember (@nil N) as s eqn:Hs.
    induction H; cbn; try discriminate; auto.
    + apply app_eq_empty in Hs as [-> ->]. rewrite IHMatches1, IHMatches2; auto.
    + rewrite IHMatches; auto.
    + rewrite IHMatches; auto using orb_true_r.
Qed.

Lemma Matches_deriv c r s : Matches r (c :: s) -> Matches (deriv c r) s.
Proof.
  intros H. remember (c :: s) as cs eqn:Hcs. revert s Hcs.
  induction H; intros s' Hcs; try discriminate.
  - injection Hcs as -> <-. cbn. rewrite H. constructor.
  - cbn. apply app_eq_cons in Hcs as [[-> ->]|(s1' & -> & ->)].
    + apply nullable_Matches in H as ->. apply MAltR. auto.
    + destruct (nullable r1); [apply MAltL|]; constructor; auto.
  - cbn. apply MAltL. auto.
  - cbn. apply MAltR. auto.
  - apply app_eq_cons in Hcs as [[-> ->]|(s1' & -> & ->)].
    + auto.
    + cbn. constructor; auto.
Qed.

Lemma deriv_Matches c r : forall s, Matches (deriv c r) s -> Matches r (c :: s).
Proof.
  induction r; cbn; intros s H.
  - inversion H.
  - inversion H.
  - destruct (p c) eqn:Hp; inversion H; subst. constructor. exact Hp.
  - assert (Hseq : forall s, Matches (Seq (deriv c r1) r2) s ->
                             Matches (Seq r1 r2) (c :: s)).
    { intros s0 H0. inversion H0; subst. rewrite <- app_cons.
      constructor; auto. }
    destruct (nullable r1) eqn:Hn; [|auto].
    inversion H; subst; [auto|].
    change (c :: s) with (@nil N ++ c :: s). constructor; auto.
    apply nullable_Matches. exact Hn.
  - inversion H; subst; [apply MAltL|apply MAltR]; auto.
  - inversion H; subst. rewrite <- app_cons. constructor; auto.
Qed.

(** [match_] decides that a prefix of the subject is in the language. *)
Lemma match_Matches s : forall r,
  match_ r s = true <-> ∃ p t, s = p ++ t ∧ Matches r p.
Proof.
  induction s as [|c s IH]; intros r; cbn.
  - rewrite orb_false_r, nullable_Matches. split.
    + intros H. exists "", "". auto.
    + intros (p & t & Hs & H). symmetry in Hs.
      apply app_eq_empty in Hs as [-> _]. exact H.
  - split.
    + intros H. apply orb_prop in H as [H|H].
      * exists "", (c :: s). split; [reflexivity|].
        apply nullable_Matches. exact H.
      * apply IH in H as (p & t & -> & H).
        exists (c :: p), t. split; [reflexivity|].
        apply deriv_Matches. exact H.
    + intros (p & t & Hs & H). symmetry in Hs.
      apply app_eq_cons in Hs as [[-> _]|(p' & -> & ->)].
      * apply nullable_Matches in H as ->. reflexivity.
      * apply orb_true_intro. right. apply IH. exists p', t.
        split; [reflexivity|]. apply Matches_deriv. exact H.
Qed.

Lemma Matches_Cls_inv p s :
  Matches (Cls p) s -> ∃ c, s = c :: "" ∧ p c = true.
Proof. intros H. inversion H; subst. eauto. Qed.

Lemma Matches_Seq_inv r1 r2 s :
  Matches (Seq r1 r2) s ->
  ∃ s1 s2, s = s1 ++ s2 ∧ Matches r1 s1 ∧ Matches r2 s2.
Proof. intros H. inversion H; subst. eauto. Qed.

Lemma Matches_Alt_inv r1 r2 s :
  Matches (Alt r1 r2) s -> Matches r1 s ∨ Matches r2 s.
Proof. intros H. inversion H; subst; auto. Qed.

Lemma Matches_star_space s :
  Matches (Star (Cls PyStr.isspace)) s <-> all_space s = true.
Proof.
  split.
  - intros H. remember (Star (Cls PyStr.isspace)) as r eqn:Hr.
    induction H; try discriminate; [reflexivity|].
    injection Hr as ->. apply Matches_Cls_inv in H as (c & -> & Hc).
    rewrite ?app_cons. change (@nil N ++ s2) with s2. cbn.
    rewrite IHMatches2 by reflexivity. rewrite Hc. reflexivity.
  - induction s as [|c s IH]; cbn; intros H; [constructor|].
    apply andb_prop in H as [Hc Hs].
    change (c :: s) with ([c] ++ s).
    constructor; [constructor|]; auto.
Qed.

Lemma Matches_word_ci w : forall s,
  Matches (word_ci w) s <-> strip_prefix_ci w s = Some "".
Proof.
  induction w as [|k w IH]; intros s; cbn.
  - split.
    + intros H. inversion H. reflexivity.
    + intros [= ->]. constructor.
  - split.
    + intros H. apply Matches_Seq_inv in H as (s1 & s2 & -> & H1 & H2).
      apply Matches_Cls_inv in H1 as (c & -> & Hc).
      rewrite ?app_cons. change (@nil N ++ s2) with s2.
      rewrite Hc. apply IH. exact H2.
    + destruct s as [|c s]; [discriminate|].
      destruct (PyStr.ci_eqb k c) eqn:Hk; [|discriminate].
      intros H. change (c :: s) with ([c] ++ s).
      constructor; [constructor; exact Hk|]. apply IH. exact H.
Qed.

Lemma strip_prefix_ci_app w : forall s rest,
  strip_prefix_ci w s = Some rest <->
  ∃ pre, s = pre ++ rest ∧ strip_prefix_ci w pre = Some "".
Proof.
  induction w as [|k w IH]; intros s rest; cbn.
  - split.
    + intros [= ->]. exists "". auto.
    + intros (pre & -> & [= ->]). reflexivity.
  - split.
    + destruct s as [|c s]; [discriminate|].
      destruct (PyStr.ci_eqb k c) eqn:Hk; [|discriminate].
      intros H. apply IH in H as (pre & -> & H).
      exists (c :: pre). rewrite Hk. auto.
    + intros (pre & -> & H). destruct pre as [|c pre]; [discriminate|].
      rewrite ?app_cons. destruct (PyStr.ci_eqb k c); [|discriminate].
      apply IH. eauto.
Qed.

Lemma lstrip_app_space a s :
  all_space a = true -> PyStr.lstrip (a ++ s) = PyStr.lstrip s.
Proof.
  induction a as [|c a IH]; cbn; intros H; [reflexivity|].
  apply andb_prop in H as [Hc Ha]. rewrite ?app_cons. cbn. rewrite Hc. auto.
Qed.

Lemma lstrip_split s : ∃ a, all_space a = true ∧ s = a ++ PyStr.lstrip s.
Proof.
  induction s as [|c s (a & Ha & Hs)]; [exists ""; auto|].
  cbn. destruct (PyStr.isspace c) eqn:Hc.
  - exists (c :: a). cbn. rewrite Hc, Ha, ?app_cons, <- Hs. auto.
  - exists "". auto.
Qed.

Lemma s_not_space c : PyStr.ci_eqb 115%N c = true -> PyStr.isspace c = false.
Proof.
  unfold PyStr.ci_eqb. rewrite !orb_true_iff, !andb_true_iff, !N.eqb_eq.
  intros [[[[->|[_ ->]]|[_ ->]]|[[=] _]]|[[=] _]]; reflexivity.
Qed.

Lemma keyword_not_space kw s :
  strip_prefix_ci "select" kw = Some "" ∨ strip_prefix_ci "show" kw = Some "" ->
  PyStr.lstrip (kw ++ s) = kw ++ s.
Proof.
  intros H.
  assert (∃ c kw', kw = c :: kw' ∧ PyStr.ci_eqb 115%N c = true)
    as (c & kw' & -> & Hc).
  { destruct H as [H|H]; destruct kw as [|c kw']; try discriminate;
      cbn in H; destruct (PyStr.ci_eqb 115%N c) eqn:Hc; try discriminate; eauto. }
  rewrite ?app_cons. cbn. rewrite (s_not_space _ Hc). reflexivity.
Qed.

Lemma followed_by_space_inv o :
  followed_by_space o = true ->
  ∃ c rest, o = Some (c :: rest) ∧ PyStr.isspace c = true.
Proof. destruct o as [[|c rest]|]; cbn; try discriminate. eauto. Qed.

(** The pattern of [execute] in terms of the string methods. *)
Lemma query_re_unfolded q :
  match_ query_re q = pattern_unfolded q.
Proof.
  apply eq_true_iff_eq. rewrite match_Matches. unfold pattern_unfolded. split.
  - intros (p & t & -> & H). unfold query_re in H.
    apply Matches_Seq_inv in H as (w1 & rest1 & -> & Hw1 & H).
    apply Matches_Seq_inv in H as (kw & w2 & -> & Hkw & H).
    apply Matches_Seq_inv in H as (c1 & w2' & -> & Hc & _).
    apply Matches_Cls_inv in Hc as (c & -> & Hsp).
    apply Matches_star_space in Hw1.
    assert (Hk : strip_prefix_ci "select" kw = Some ""
                 ∨ strip_prefix_ci "show" kw = Some "").
    { apply Matches_Alt_inv in Hkw as [Hkw|Hkw]; [left|right];
        apply Matches_word_ci; auto. }
    rewrite !app_assoc_s, (lstrip_app_space _ _ Hw1), (keyword_not_space _ _ Hk).
    rewrite ?app_cons. change ("" ++ w2' ++ t) with (w2' ++ t).
    apply orb_true_intro.
    destruct Hk as [Hk|Hk]; [left|right];
      rewrite (proj2 (strip_prefix_ci_app _ _ (c :: (w2' ++ t))))
        by eauto; exact Hsp.
  - intros H. destruct (lstrip_split q) as (a & Ha & Hq).
    assert (∃ pre c rest, PyStr.lstrip q = pre ++ c :: rest ∧
              PyStr.isspace c = true ∧
              Matches (Alt (word_ci "select") (word_ci "show")) pre)
      as (pre & c & rest & Hl & Hc & Hpre).
    { apply orb_prop in H as [H|H];
        apply followed_by_space_inv in H as (c & rest & H & Hc);
        apply strip_prefix_ci_app in H as (pre & Hl & Hpre);
        exists pre, c, rest; (split; [exact Hl|]); (split; [exact Hc|]);
        [apply MAltL|apply MAltR]; apply Matches_word_ci; exact Hpre. }
    exists (a ++ pre ++ [c] ++ []), rest. split.
    + rewrite Hq at 1. rewrite Hl, !app_assoc_s. reflexivity.
    + unfold query_re. constructor; [apply Matches_star_space; exact Ha|].
      constructor; [exact Hpre|].
      constructor; [constructor; exact Hc|constructor].
Qed.

Lemma one_of_true cs c : one_of cs c = true <-> In c cs.
Proof.
  unfold one_of. rewrite existsb_exists. split.
  - intros (x & Hin & Hx). apply N.eqb_eq in Hx. subst. exact Hin.
  - intros H. exists c. split; [exact H|apply N.eqb_refl].
Qed.

(** [str.isspace] holds of the whitespace characters and of no other. *)
Lemma isspace_whitespace c : PyStr.isspace c = one_of whitespace c.
Proof.
  apply eq_true_iff_eq. rewrite one_of_true. unfold PyStr.isspace, whitespace.
  rewrite !orb_true_iff, !andb_true_iff, !N.leb_le, !N.eqb_eq. cbn [In].
  lia.
Qed.

Ltac ci_letter :=
  intros c; apply eq_true_iff_eq; rewrite one_of_true; unfold PyStr.ci_eqb;
  rewrite !orb_true_iff, !andb_true_iff, !N.leb_le, !N.eqb_eq; cbn [In]; lia.

(** Under [re.I] each letter of the two keywords matches the
    characters listed for it and no other. *)
Lemma ci_eqb_select :
  Forall2 (fun k cs => ∀ c, PyStr.ci_eqb k c = one_of cs c) "select" select_ci.
Proof. repeat constructor; ci_letter. Qed.

Lemma ci_eqb_show :
  Forall2 (fun k cs => ∀ c, PyStr.ci_eqb k c = one_of cs c) "show" show_ci.
Proof. repeat constructor; ci_letter. Qed.

Lemma strip_prefix_keyword kw letters :
  Forall2 (fun k cs => ∀ c, PyStr.ci_eqb k c = one_of cs c) kw letters ->
  ∀ s, strip_prefix_ci kw s = strip_keyword letters s.
Proof.
  induction 1 as [|k cs kw letters Hk _ IH]; intros s; [destruct s; reflexivity|].
  destruct s as [|c s]; [reflexivity|]. cbn. rewrite Hk, IH. reflexivity.
Qed.

Lemma lstrip_strip_whitespace s : PyStr.lstrip s = strip_whitespace s.
Proof.
  induction s as [|c s IH]; [reflexivity|].
  cbn. rewrite isspace_whitespace, IH. reflexivity.
Qed.

Lemma followed_by_whitespace o : followed_by_space o = whitespace_next o.
Proof. destruct o as [[|c rest]|]; cbn; auto using isspace_whitespace. Qed.

(** The pattern of [execute] decides the classification that the
    specification words. *)
Lemma query_re_is_query_type q :
  match_ query_re q = is_query_type q.
Proof.
  rewrite query_re_unfolded. unfold pattern_unfolded, is_query_type. cbv zeta.
  rewrite lstrip_strip_whitespace, !followed_by_whitespace.
  rewrite (strip_prefix_keyword _ _ ci_eqb_select),
    (strip_prefix_keyword _ _ ci_eqb_show).
  reflexivity.
Qed.

(* ================================================================== *)
(** ** Properties of the fetch methods *)
(* ================================================================== *)

Section Fetch.
Context {V : Type}.

Lemma fetchone_cons (c : Cursor V) w row rest :
  _rows c = row :: rest ->
  Cursor.fetchone (c, w) = (Ok (Some row), (set_rows rest c, w)).
Proof. intros H. unfold Cursor.fetchone. unfold_M. rewrite H. reflexivity. Qed.

Lemma fetchone_nil (c : Cursor V) w :
  _rows c = [] ->
  Cursor.fetchone (c, w) = (Ok None, (set_description None c, w)).
Proof. intros H. unfold Cursor.fetchone. unfold_M. rewrite H. reflexivity. Qed.


Lemma fetchall_loop_unfold out (s : CState V) :
  Cursor.fetchall_loop out s =
  match Cursor.fetchone s with
  | (Ok None, s') => (Ok out, s')
  | (Ok (Some row), s') =>
      if row_is_none row then (Ok out, s')
      else Cursor.fetchall_loop (out ++ [row]) s'
  | (Raise e, s') => (Raise e, s')
  end.
Proof.
  rewrite Cursor.fetchall_loop_equation_1.
  destruct (inspect (Cursor.fetchone s)) as [[[[row|]|e] s'] Heq];
    unfold Cursor.fetchall_loop_unfold_clause_1; rewrite Heq; reflexivity.
Qed.

Lemma fetchmany_loop_unfold size out (s : CState V) :
  Cursor.fetchmany_loop size out s =
  if 0 <? size then
    match Cursor.fetchone s with
    | (Ok None, s') => (Ok out, s')
    | (Ok (Some row), s') =>
        if row_is_none row then (Ok out, s')
        else Cursor.fetchmany_loop size (out ++ [row]) s'
    | (Raise e, s') => (Raise e, s')
    end
  else (Ok out, s).
Proof.
  rewrite Cursor.fetchmany_loop_equation_1.
  destruct (0 <? size); [|reflexivity]. cbn.
  destruct (inspect (Cursor.fetchone s)) as [[[[row|]|e] s'] Heq];
    unfold Cursor.fetchmany_loop_unfold_clause_1_clause_2; rewrite Heq; reflexivity.
Qed.

Lemma fetched_nil (c : Cursor V) : _rows c = [] -> fetched c = drained c.
Proof. intros H. unfold fetched. rewrite H. reflexivity. Qed.

Lemma fetched_cons (c : Cursor V) row rest :
  _rows c = row :: rest ->
  fetched c =
  if row_is_none row then set_rows rest c else fetched (set_rows rest c).
Proof.
  intros H. unfold fetched. rewrite H. cbn.
  destruct (row_is_none row); [reflexivity|].
  destruct (after_none rest); reflexivity.
Qed.

Lemma until_none_all (rows : list (Row V)) :
  after_none rows = None -> until_none rows = rows.
Proof.
  induction rows as [|row rest IH]; cbn; [reflexivity|].
  destruct (row_is_none row); [discriminate|]. intros H. rewrite IH; auto.
Qed.

Lemma after_none_tuples (ts : list (list V)) :
  after_none (map Tuple ts) = None.
Proof. induction ts as [|t ts IH]; cbn; auto. Qed.

Lemma fetchall_loop_until (rows : list (Row V)) : forall (c : Cursor V) w out,
  _rows c = rows ->
  Cursor.fetchall_loop out (c, w)
  = (Ok (out ++ until_none rows), (fetched c, w)).
Proof.
  induction rows as [|row rest IH]; intros c w out Hr.
  - rewrite fetchall_loop_unfold, (fetchone_nil _ _ Hr), app_nil_r.
    rewrite (fetched_nil _ Hr).
    unfold drained. destruct c; cbn in *; subst; reflexivity.
  - rewrite fetchall_loop_unfold, (fetchone_cons _ _ _ _ Hr).
    rewrite (fetched_cons _ _ _ Hr). cbn.
    destruct (row_is_none row); [rewrite app_nil_r; reflexivity|].
    rewrite (IH (set_rows rest c) w (out ++ [row])) by reflexivity.
    rewrite <- app_assoc. reflexivity.
Qed.

Lemma fetchmany_loop_until size (rows : list (Row V)) :
  0 < size -> forall (c : Cursor V) w out,
  _rows c = rows ->
  Cursor.fetchmany_loop size out (c, w)
  = (Ok (out ++ until_none rows), (fetched c, w)).
Proof.
  intros Hs. apply Z.ltb_lt in Hs.
  induction rows as [|row rest IH]; intros c w out Hr.
  - rewrite fetchmany_loop_unfold, Hs, (fetchone_nil _ _ Hr), app_nil_r.
    rewrite (fetched_nil _ Hr).
    unfold drained. destruct c; cbn in *; subst; reflexivity.
  - rewrite fetchmany_loop_unfold, Hs, (fetchone_cons _ _ _ _ Hr).
    rewrite (fetched_cons _ _ _ Hr). cbn.
    destruct (row_is_none row); [rewrite app_nil_r; reflexivity|].
    rewrite (IH (set_rows rest c) w (out ++ [row])) by reflexivity.
    rewrite <- app_assoc. reflexivity.
Qed.

(** What [fetchmany] returns, for every argument and every cursor. *)
Lemma fetchmany_until size (c : Cursor V) w :
  Cursor.fetchmany size (c, w) =
  if 0 <? effective_size size c
  then (Ok (until_none (_rows c)), (fetched c, w))
  else (Ok [], (c, w)).
Proof.
  unfold Cursor.fetchmany. unfold_M. fold (effective_size size c).
  destruct (0 <? effective_size size c) eqn:Hs.
  - apply Z.ltb_lt in Hs. rewrite (fetchmany_loop_until _ (_rows c)); auto.
  - rewrite fetchmany_loop_unfold, Hs. reflexivity.
Qed.

(** What [fetchall] returns, for every cursor. *)
Lemma fetchall_until (c : Cursor V) w :
  Cursor.fetchall (c, w) = (Ok (until_none (_rows c)), (fetched c, w)).
Proof. unfold Cursor.fetchall. rewrite (fetchall_loop_until (_rows c)); auto. Qed.

(** The same for a buffer without a [None] row, as [execute] leaves it
    when it returns. *)
Lemma fetchmany_eq size (c : Cursor V) w :
  after_none (_rows c) = None ->
  Cursor.fetchmany size (c, w) =
  if 0 <? effective_size size c
  then (Ok (_rows c), (drained c, w))
  else (Ok [], (c, w)).
Proof.
  intros H. rewrite fetchmany_until, (until_none_all _ H).
  unfold fetched. rewrite H. reflexivity.
Qed.

Lemma fetchall_eq (c : Cursor V) w :
  after_none (_rows c) = None ->
  Cursor.fetchall (c, w) = (Ok (_rows c), (drained c, w)).
Proof.
  intros H. rewrite fetchall_until, (until_none_all _ H).
  unfold fetched. rewrite H. reflexivity.
Qed.

End Fetch.

Ltac no_none := cbn; first [reflexivity | apply after_none_tuples].

(* ================================================================== *)
(** ** Properties of [execute] *)
(* ================================================================== *)

Section Execute.
Context {V : Type} `{!Env V}.

Lemma execute_closed q p (c : Cursor V) w :
  connection c = None ->
  Cursor.execute q p (c, w) = (Raise connection_closed, (c, w)).
Proof. intros H. unfold Cursor.execute. unfold_M. rewrite H. reflexivity. Qed.

Lemma execute_session_closed q p (c : Cursor V) w r conn :
  connection c = Some r -> conns w !! r = Some conn -> _sess conn = None ->
  Cursor.execute q p (c, w) = (Raise connection_closed, (c, w)).
Proof.
  intros Hc Hr Hs. unfold Cursor.execute, Cursor._post, Connection._post, Connection.deref.
  unfold_M. rewrite Hc. cbn. rewrite Hr. cbn.
  destruct (Regex.match_ query_re q); cbn; rewrite Hc; cbn; rewrite Hr; cbn; rewrite Hs; reflexivity.
Qed.

Lemma execute_opened q p (c : Cursor V) w conn sess :
  opened c w conn sess ->
  let rq := request_of conn sess q p in
  Cursor.execute q p (c, w) =
  match transport (sent w ++ [rq]) with
  | Some res =>
      if 400 <=? status_code res
      then Cursor.raise_for_status res (c, after_request rq w)
      else (out ← or_raise JSONDecodeError (body_json res);
            Cursor.load (sql_type_of q) out) (c, after_request rq w)
  | None => (Raise RequestException, (c, after_request rq w))
  end.
Proof.
  intros (r & Hc & Hr & Hs).
  unfold Cursor.execute, Cursor._post, Connection._post, Connection.deref,
    Connection.request, request_of, endpoint, sql_type_of, after_request in *.
  unfold_M. rewrite Hc. cbn. rewrite Hr. cbn.
  destruct (Regex.match_ query_re q); cbn; rewrite Hc; cbn; rewrite Hr; cbn;
    rewrite Hs; cbn;
    match goal with |- context [transport ?h] => destruct (transport h) end;
    cbn; try reflexivity; destruct (400 <=? _); reflexivity.
Qed.

Lemma execute_answered q p (c : Cursor V) w conn sess res :
  answered q p c w conn sess res ->
  Cursor.execute q p (c, w) =
  if 400 <=? status_code res
  then Cursor.raise_for_status res
         (c, after_request (request_of conn sess q p) w)
  else (out ← or_raise JSONDecodeError (body_json res);
        Cursor.load (sql_type_of q) out)
         (c, after_request (request_of conn sess q p) w).
Proof.
  intros [Ho Ht]. rewrite (execute_opened _ _ _ _ _ _ Ho). cbn.
  rewrite Ht. reflexivity.
Qed.

Lemma raise_for_status_raises {A} res (s : CState V) :
  ∃ e, Cursor.raise_for_status (A:=A) res s = (Raise e, s).
Proof.
  unfold Cursor.raise_for_status. unfold_M.
  destruct (negb _); [|eauto].
  destruct (PyStr.contains _ _); [|eauto].
  destruct (PyStr.split _ _ _) as [|code [|msg [|]]]; eauto.
  destruct (last _); cbn; eauto.
  destruct (PyStr.int _); cbn; eauto.
Qed.

Lemma execute_ok_answered q p (c : Cursor V) w s' :
  Cursor.execute q p (c, w) = (Ok tt, s') ->
  ∃ conn sess res, answered q p c w conn sess res.
Proof.
  intros H.
  destruct (connection c) as [r|] eqn:Hc;
    [|rewrite execute_closed in H by done; discriminate].
  destruct (conns w !! r) as [conn|] eqn:Hr.
  2:{ unfold Cursor.execute, Connection.deref in H. unfold_M_in H.
      rewrite Hc in H. cbn in H. rewrite Hr in H. discriminate. }
  destruct (_sess conn) as [sess|] eqn:Hs;
    [|rewrite (execute_session_closed _ _ _ _ _ _ Hc Hr Hs) in H; discriminate].
  assert (Ho : opened c w conn sess) by (exists r; done).
  rewrite (execute_opened _ _ _ _ _ _ Ho) in H. cbn in H.
  destruct (transport _) as [res|] eqn:Ht; [|discriminate].
  exists conn, sess, res. split; done.
Qed.

Lemma mapM_result_cons {A B} (f : A -> result B) x l :
  mapM f (x :: l) =
  match f x with
  | Ok y => match mapM f l with
            | Ok k => Ok (y :: k)
            | Raise e => Raise e
            end
  | Raise e => Raise e
  end.
Proof. reflexivity. Qed.

Lemma mapM_result_length {A B} (f : A -> result B) l : forall k,
  mapM f l = Ok k -> length k = length l.
Proof.
  induction l as [|x l IH]; intros k H.
  - inversion H. reflexivity.
  - rewrite mapM_result_cons in H. destruct (f x); [|discriminate].
    destruct (mapM f l) eqn:Hm; [|discriminate]. inversion H; subst.
    cbn. f_equal. apply IH. reflexivity.
Qed.

Lemma describe_ok items : forall convs (c : Cursor V) w convs' c' w' d,
  description c = Some d ->
  Cursor.describe items convs (c, w) = (Ok convs', (c', w')) ->
  ∃ cds, mapM Cursor.column items = Ok cds ∧ convs' = convs ++ cds.*1 ∧
         c' = set_description (Some (d ++ cds.*2)) c ∧ w' = w.
Proof.
  induction items as [|item rest IH]; intros convs c w convs' c' w' d Hd H.
  - cbn in H. unfold_M_in H. inversion H; subst. exists []. cbn.
    rewrite !app_nil_r. destruct c'; cbn in *; subst; done.
  - cbn in H. unfold_M_in H. destruct (Cursor.column item) as [[conv cd]|e] eqn:Hcol;
      [|discriminate].
    cbn in H. rewrite Hd in H. cbn in H.
    apply IH with (d := d ++ [cd]) in H; [|reflexivity].
    destruct H as (cds & Hm & -> & -> & ->).
    exists ((conv, cd) :: cds). rewrite mapM_result_cons, Hcol, Hm. cbn.
    rewrite <- !app_assoc. done.
Qed.

Lemma convert_rows_ok convs rs : forall pre (c : Cursor V) w c' w',
  _rows c = pre ++ map Raw rs ->
  Cursor.convert_rows convs (length pre) rs (c, w) = (Ok tt, (c', w')) ->
  ∃ ts, mapM (Cursor.convert_row convs) rs = Ok ts ∧
        c' = set_rows (pre ++ map Tuple ts) c ∧ w' = w.
Proof.
  induction rs as [|row rest IH]; intros pre c w c' w' Hr H.
  - cbn in H. unfold_M_in H. inversion H; subst. exists []. cbn in *.
    destruct c'; cbn in *; subst; done.
  - cbn in H. unfold_M_in H.
    destruct (Cursor.convert_row convs row) as [t|e] eqn:Hrow; [|discriminate].
    cbn in H. rewrite Hr in H. cbn in H.
    rewrite insert_app_r_alt, Nat.sub_diag in H by lia. cbn in H.
    replace (S (length pre)) with (length (pre ++ [Tuple t])) in H
      by (rewrite length_app; cbn; lia).
    apply IH in H; [|cbn; rewrite <- app_assoc; reflexivity].
    destruct H as (ts & Hm & -> & ->).
    exists (t :: ts). rewrite mapM_result_cons, Hrow, Hm. cbn.
    rewrite <- app_assoc. done.
Qed.

Lemma load_query_ok out (c : Cursor V) w c' w' :
  Cursor.load "query" out (c, w) = (Ok tt, (c', w')) ->
  ∃ first columns items cds rows rs ts,
    Cursor.result0 out = Ok first ∧
    PyJson.get first "columns" (JArr []) = Ok columns ∧
    PyJson.iter columns = Ok items ∧
    mapM Cursor.column items = Ok cds ∧
    PyJson.getitem first "rows" = Ok rows ∧
    rows_of rows = Some rs ∧
    mapM (Cursor.convert_row cds.*1) rs = Ok ts ∧
    c' = mkCursor (connection c) (map Tuple ts) (Some cds.*2) (arraysize c)
           (JInt (Z.of_nat (length rs))) (messages c) (lastrowid c) ∧
    w' = w.
Proof.
  intros H. unfold Cursor.load in H. unfold_M_in H.
  destruct (Cursor.result0 out) as [first|] eqn:H0; [|discriminate]. cbn in H.
  destruct (PyJson.get first _ _) as [columns|] eqn:Hcols; [|discriminate].
  cbn in H.
  destruct (PyJson.iter columns) as [items|] eqn:Hit; [|discriminate].
  cbn in H.
  destruct (Cursor.describe items [] _) as [[convs|] [c1 w1]] eqn:Hd;
    [|discriminate].
  apply describe_ok with (d := []) in Hd; [|reflexivity].
  destruct Hd as (cds & Hm & -> & -> & ->). cbn in H.
  destruct (PyJson.getitem first "rows") as [rows|] eqn:Hrows; [|discriminate].
  cbn in H. destruct rows as [| | | |[|ch t]|rs|[|[k v] ms]]; try discriminate;
    cbn in H.
  - inversion H; subst. exists first, columns, items, cds, (JStr []), [], [].
    done.
  - destruct (mapM _ (zip _ _)); cbn in H; discriminate.
  - destruct (Cursor.convert_rows _ _ _ _) as [[[]|] [c2 w2]] eqn:Hc;
      [|discriminate].
    apply (convert_rows_ok _ _ []) in Hc; [|reflexivity].
    destruct Hc as (ts & Hts & -> & ->). cbn in H. inversion H; subst.
    exists first, columns, items, cds, (JArr rs), rs, ts.
    rewrite length_map, (mapM_result_length _ _ _ Hts). done.
  - inversion H; subst. exists first, columns, items, cds, (JObj []), [], [].
    done.
  - destruct (mapM _ (zip _ _)); cbn in H; discriminate.
Qed.

Lemma load_exec_ok out (c : Cursor V) w c' w' :
  Cursor.load "exec" out (c, w) = (Ok tt, (c', w')) ->
  ∃ v, PyJson.getitem out "rowsAffected" = Ok v ∧
       c' = mkCursor (connection c) [] None (arraysize c) v (messages c)
              (lastrowid c) ∧
       w' = w.
Proof.
  intros H. unfold Cursor.load in H. unfold_M_in H.
  destruct (PyJson.getitem out _) as [affected|] eqn:Ha; [|discriminate].
  cbn in H. inversion H; subst. eauto.
Qed.

Lemma describe_world items : forall convs (c : Cursor V) w,
  (Cursor.describe items convs (c, w)).2.2 = w.
Proof.
  induction items as [|item rest IH]; intros convs c w; [reflexivity|].
  cbn. unfold_M. destruct (Cursor.column item) as [[conv cd]|]; [|reflexivity].
  cbn. destruct (description c); cbn; [|reflexivity].
  match goal with |- context [Cursor.describe rest ?cv (?c1, w)] =>
    specialize (IH cv c1 w); destruct (Cursor.describe rest cv (c1, w)) as [[] []]
  end; exact IH.
Qed.

Lemma convert_rows_world convs rs : forall i (c : Cursor V) w,
  (Cursor.convert_rows convs i rs (c, w)).2.2 = w.
Proof.
  induction rs as [|row rest IH]; intros i c w; [reflexivity|].
  cbn. unfold_M. destruct (Cursor.convert_row convs row); [|reflexivity].
  cbn.
  match goal with |- context [Cursor.convert_rows convs ?j rest (?c1, w)] =>
    specialize (IH j c1 w);
    destruct (Cursor.convert_rows convs j rest (c1, w)) as [[] []]
  end; exact IH.
Qed.

Lemma load_world sql out (c : Cursor V) w :
  (Cursor.load sql out (c, w)).2.2 = w.
Proof.
  unfold Cursor.load. unfold_M. destruct (PyStr.eqb sql "query").
  - destruct (Cursor.result0 out) as [first|]; [|reflexivity]. cbn.
    destruct (PyJson.get first _ _) as [columns|]; [|reflexivity]. cbn.
    destruct (PyJson.iter columns) as [items|]; [|reflexivity]. cbn.
    match goal with |- context [Cursor.describe items [] (?c0, w)] =>
      generalize (describe_world items [] c0 w);
      destruct (Cursor.describe items [] (c0, w)) as [[convs|] [c1 w1]]
    end; cbn; intros ->; [|reflexivity].
    destruct (PyJson.getitem first "rows") as [rows|]; [|reflexivity]. cbn.
    destruct rows as [| | | |[|ch t]|rs|[|[k v] ms]]; try reflexivity; cbn;
      try (destruct (mapM _ (zip _ _)); reflexivity).
    match goal with |- context [Cursor.convert_rows ?cv ?i ?rs (?c0, w)] =>
      generalize (convert_rows_world cv rs i c0 w);
      destruct (Cursor.convert_rows cv i rs (c0, w)) as [[[]|] [c2 w2]]
    end; cbn; intros ->; reflexivity.
  - destruct (PyJson.getitem out _) as [a|]; reflexivity.
Qed.

(** Through an open connection [execute] sends one request, whatever
    happens next. *)
Lemma execute_opened_sent q p (c : Cursor V) w conn sess :
  opened c w conn sess ->
  (Cursor.execute q p (c, w)).2.2 = after_request (request_of conn sess q p) w.
Proof.
  intros Ho. rewrite (execute_opened _ _ _ _ _ _ Ho). cbn.
  destruct (transport _) as [res|]; [|reflexivity].
  destruct (400 <=? status_code res).
  - destruct (raise_for_status_raises (A:=unit) res
                (c, after_request (request_of conn sess q p) w)) as [e ->].
    reflexivity.
  - unfold_M. destruct (body_json res); [|reflexivity]. cbn. apply load_world.
Qed.

Lemma mapM_result_Forall2 {A B} (f : A -> result B) l : forall k,
  mapM f l = Ok k -> Forall2 (fun x y => f x = Ok y) l k.
Proof.
  induction l as [|x l IH]; intros k H.
  - inversion H. constructor.
  - rewrite mapM_result_cons in H. destruct (f x) eqn:Hx; [|discriminate].
    destruct (mapM f l) eqn:Hm; [|discriminate]. inversion H; subst.
    constructor; auto.
Qed.

Lemma column_describes item conv d :
  Cursor.column item = Ok (conv, d) -> describes item d.
Proof.
  unfold Cursor.column, PyJson.getitem, PyJson.get. intros H.
  destruct item as [| | | | | |ms]; try discriminate.
  destruct (PyJson.member "dataType" ms) as [dt|] eqn:Hdt; [|discriminate].
  cbn in H. destruct (get_name dt) as [ty|] eqn:Hty; [|discriminate].
  cbn in H. destruct (converters ty); [|discriminate]. cbn in H.
  destruct (PyJson.member "name" ms) as [name|] eqn:Hname; [|discriminate].
  cbn in H. exists ms, dt, ty, name.
  destruct (PyJson.member "nullable" ms); cbn in H; inversion H; subst; done.
Qed.

Lemma execute_ok_inv q p (c : Cursor V) w c' w' :
  Cursor.execute q p (c, w) = (Ok tt, (c', w')) ->
  ∃ conn sess res out,
    answered q p c w conn sess res ∧ status_code res < 400 ∧
    body_json res = Some out ∧
    Cursor.load (sql_type_of q) out
      (c, after_request (request_of conn sess q p) w) = (Ok tt, (c', w')).
Proof.
  intros H. destruct (execute_ok_answered _ _ _ _ _ H) as (conn & sess & res & Ha).
  rewrite (execute_answered _ _ _ _ _ _ _ Ha) in H.
  destruct (400 <=? status_code res) eqn:Hs.
  { destruct (raise_for_status_raises (A:=unit) res
                (c, after_request (request_of conn sess q p) w)) as [e He].
    rewrite He in H. discriminate. }
  apply Z.leb_gt in Hs. unfold_M_in H.
  destruct (body_json res) as [out|] eqn:Hout; [|discriminate].
  exists conn, sess, res, out. done.
Qed.

Lemma fetchone_times_rows (rows : list (Row V)) : forall (c : Cursor V) w,
  _rows c = rows ->
  fetchone_times (S (length rows)) (c, w) =
  (Ok (map Some rows ++ [None]), (drained c, w)).
Proof.
  induction rows as [|row rest IH]; intros c w Hr.
  - cbn. unfold mbind, M_bind. rewrite (fetchone_nil _ _ Hr). cbn.
    unfold drained. destruct c; cbn in *; subst; reflexivity.
  - change (fetchone_times (S (length (row :: rest))))
      with (r ← Cursor.fetchone; rs ← fetchone_times (S (length rest));
            mret (r :: rs) : M (CState V) _).
    unfold mbind, M_bind. rewrite (fetchone_cons _ _ _ _ Hr).
    rewrite (IH (set_rows rest c) w) by reflexivity. reflexivity.
Qed.

Lemma fetchone_times_drained n (c : Cursor V) w :
  fetchone_times n (drained c, w) = (Ok (replicate n None), (drained c, w)).
Proof.
  induction n as [|n IH]; [reflexivity|].
  cbn. unfold mbind, M_bind.
  rewrite (fetchone_nil (drained c) w) by reflexivity.
  change (set_description None (drained c)) with (drained c).
  rewrite IH. reflexivity.
Qed.

Lemma is_connected_closed r w conn :
  conns w !! r = Some conn -> _sess conn = None ->
  Connection.is_connected r w = (Ok false, w).
Proof.
  intros Hr Hs. unfold Connection.is_connected, Connection.deref. unfold_M.
  rewrite Hr. cbn. rewrite Hs. reflexivity.
Qed.

End Execute.

(* ================================================================== *)
(** ** The demo server at work *)
(* ================================================================== *)

(** The demo world is the one the constructor builds. *)
Example demo_world_constructed :
  Connection.__init__ None None (Some "user") (Some "secret") None "http" "v1"
    (mkWorld ∅ []) = (Ok 0%nat, Demo.world).
Proof. reflexivity. Qed.

Lemma demo_opened (c : Cursor json) :
  connection c = Some 0%nat -> opened c Demo.world Demo.conn Demo.session.
Proof. intros H. exists 0%nat. split; [exact H|]. split; reflexivity. Qed.

(** The statements of the specification's examples are classified as it
    says. *)
Example classification_examples :
  sql_type_of "SELECT 1" = "query" ∧
  sql_type_of "CREATE TABLE t(x INT)" = "exec" ∧
  sql_type_of "   sHoW tables" = "query" ∧
  sql_type_of "selection" = "exec" ∧
  sql_type_of "select" = "exec" ∧
  sql_type_of "ſelect 1" = "query" ∧
  sql_type_of (12288%N :: "SELECT" ++ 8195%N :: "1") = "query" ∧
  sql_type_of "ŝelect 1" = "exec".
Proof. repeat split; reflexivity. Qed.

(** A response with status 500 and an empty body. *)
Example http_error_empty_body :
  (Cursor.execute "select a from z" None (Demo.cur, Demo.world)).1
  = Raise (InterfaceError 500 "HTTP Error").
Proof. reflexivity. Qed.

(** A token before the colon that is not an integer: no interface-level
    error comes out. *)
Example http_error_no_code :
  @Cursor.raise_for_status json unit (mkResponse 404 "Not Found: /exec" None)
    (Demo.cur, Demo.world)
  = (Raise ValueError, (Demo.cur, Demo.world)).
Proof. reflexivity. Qed.

(** A row that is [null] stops the conversion of the rows; the buffer
    keeps the rows converted so far, the [null] and the rows after it.
    [fetchall] then returns the rows before the [null], takes the [null]
    out and leaves the rest, with the description still set; [next] on
    the [null] raises [StopIteration]. *)
Example fetch_stops_at_none_row :
  let s := Cursor.execute "select a from u" None (Demo.cur, Demo.world) in
  s.1 = Raise TypeError ∧
  s.2.1 = Demo.cur_null ∧
  (Cursor.fetchall s.2).1 = Ok [Tuple [JInt 1]] ∧
  (Cursor.fetchmany None s.2).1 = Ok [Tuple [JInt 1]] ∧
  _rows (Cursor.fetchall s.2).2.1 = [Raw (JArr [JInt 2])] ∧
  is_Some (description (Cursor.fetchall s.2).2.1) ∧
  (Cursor.next (Cursor.fetchone s.2).2).1 = Raise StopIteration ∧
  _rows (Cursor.next (Cursor.fetchone s.2).2).2.1 = [Raw (JArr [JInt 2])].
Proof.
  cbv zeta. repeat split; try reflexivity. eexists. reflexivity.
Qed.

(** [rows] an empty string: the query succeeds with no rows. *)
Example execute_empty_string_rows :
  let s := Cursor.execute "select a from e" None (Demo.cur, Demo.world) in
  s.1 = Ok tt ∧ _rows s.2.1 = [] ∧ rowcount s.2.1 = JInt 0 ∧
  is_Some (description s.2.1).
Proof. cbv zeta. repeat split. eexists. reflexivity. Qed.

(** [rowsAffected] a string: [rowcount] takes it as it is, and
    [rownumber] then fails to subtract. *)
Example execute_affected_string :
  let s := Cursor.execute "delete from t" None (Demo.cur3, Demo.world) in
  s.1 = Ok tt ∧ rowcount s.2.1 = JStr "3" ∧ _rows s.2.1 = [] ∧
  description s.2.1 = None ∧
  (Cursor.rownumber s.2).1 = Raise TypeError.
Proof. cbv zeta. repeat split. Qed.

(* ================================================================== *)
(** ** The claims *)
(* ================================================================== *)

(** *** C1 *)

(** C1 (what the code does instead).  On a buffer of three rows,
    [fetchmany(1)] returns the three rows, not [min(1, 3) = 1] row: the
    loop [while size > 0] never decreases [size], so it ends only when
    [fetchone] finds the buffer empty. *)
Theorem fetchmany_ignores_size :
  length (_rows Demo.cur3) = 3%nat ∧
  Cursor.fetchmany (Some 1) (Demo.cur3, Demo.world) =
  (Ok [Tuple [JInt 1]; Tuple [JInt 2]; Tuple [JInt 3]],
   (drained Demo.cur3, Demo.world)).
Proof. split; reflexivity. Qed.

(** *** C2 *)




(** *** C3 *)

(** C3 fails as stated: for a body without a colon the message is the
    body stripped of the whitespace around it, not the full body. *)
Lemma http_error_message_is_trimmed :
  let res := mkResponse 503 "Service Unavailable " None in
  answered "select a from y" None Demo.cur Demo.world Demo.conn Demo.session
    res ∧
  spec_http_error res = Some (InterfaceError 503 "Service Unavailable ") ∧
  (Cursor.execute "select a from y" None (Demo.cur, Demo.world)).1
    = Raise (InterfaceError 503 "Service Unavailable") ∧
  (Cursor.execute "select a from y" None (Demo.cur, Demo.world)).1
    ≠ Raise (InterfaceError 503 "Service Unavailable ").
Proof.
  cbv zeta. split; [split; [apply demo_opened|]; reflexivity|].
  split; [reflexivity|]. split; [reflexivity|]. discriminate.
Qed.

(** C3, as the code has it.  An [execute] answered with a status of
    400 or more raises [InterfaceError]:
    - with the status and ["HTTP Error"] when the body is empty;
    - with the status and the stripped body when the body has no colon;
    - when the body is [code : msg], [code] free of colons, and the last
      whitespace-delimited token of [code] reads as an integer, with
      that integer and [msg] stripped. *)
Theorem execute_http_error {V : Type} `{!Env V} q p (c : Cursor V) w
  conn sess res :
  answered q p c w conn sess res ->
  400 <= status_code res ->
  (text res = "" ->
   (Cursor.execute q p (c, w)).1 =
   Raise (InterfaceError (status_code res) "HTTP Error")) ∧
  (text res ≠ "" -> PyStr.contains 58%N (text res) = false ->
   (Cursor.execute q p (c, w)).1 =
   Raise (InterfaceError (status_code res) (PyStr.strip (text res)))) ∧
  (∀ code msg tok icode,
     text res = code ++ ":" ++ msg ->
     PyStr.contains 58%N code = false ->
     last (PyStr.split_ws code) = Some tok ->
     PyStr.int tok = Some icode ->
     (Cursor.execute q p (c, w)).1 =
     Raise (InterfaceError icode (PyStr.strip msg))).
Proof.
  intros Ha Hs. rewrite (execute_answered _ _ _ _ _ _ _ Ha).
  apply Z.leb_le in Hs. rewrite Hs. unfold Cursor.raise_for_status.
  split; [|split].
  - intros ->. reflexivity.
  - intros Hne Hc. apply PyStr_eqb_neq in Hne. rewrite Hne, Hc. reflexivity.
  - intros code msg tok icode Ht Hc Htok Hint.
    assert (Hne : PyStr.eqb (text res) "" = false).
    { apply PyStr_eqb_neq. rewrite Ht. destruct code; discriminate. }
    assert (Hcol : PyStr.contains 58%N (text res) = true).
    { rewrite Ht, contains_app. cbn. apply orb_true_r. }
    rewrite Hne, Hcol, Ht. cbn [negb].
    change (":" ++ msg) with (58%N :: msg).
    rewrite (split_first _ _ _ Hc). unfold_M. rewrite Htok. cbn.
    rewrite Hint. reflexivity.
Qed.

(** C3 at the specification's example: status 400 and the body
    ["1146: Table 'x' doesn't exist"]. *)
Lemma execute_http_error_witness :
  let res := mkResponse 400 "1146: Table 'x' doesn't exist" None in
  answered "select a from x" None Demo.cur Demo.world Demo.conn Demo.session
    res ∧
  400 <= status_code res ∧
  (Cursor.execute "select a from x" None (Demo.cur, Demo.world)).1
    = Raise (InterfaceError 1146 "Table 'x' doesn't exist").
Proof.
  cbv zeta.
  assert (Ha : answered "select a from x" None Demo.cur Demo.world Demo.conn
                 Demo.session
                 (mkResponse 400 "1146: Table 'x' doesn't exist" None)).
  { split; [apply demo_opened|]; reflexivity. }
  split; [exact Ha|]. split; [cbn; lia|].
  apply (proj2 (proj2 (execute_http_error _ _ _ _ _ _ _ Ha ltac:(cbn; lia)))
           "1146" " Table 'x' doesn't exist" "1146" 1146); reflexivity.
Defined.

(** *** C4 *)

(** C4.  After a successful [execute] of a query-type statement, the
    buffer holds the rows of the response, converted, in the order of the
    response, and [rowcount] is their number.  [fetchone] called
    [rowcount + 1] times returns these rows in order and then [None],
    once.  [fetchall] returns them all; a second [fetchall] returns the
    empty list, and from then on the buffer stays empty under every
    fetch method. *)
Theorem fetch_after_query {V : Type} `{!Env V} q p (c : Cursor V) w c' w' :
  is_query_type q = true ->
  Cursor.execute q p (c, w) = (Ok tt, (c', w')) ->
  ∃ rows : list (Row V),
    (∃ conn sess res out first sent_rows rs convs,
       answered q p c w conn sess res ∧ body_json res = Some out ∧
       Cursor.result0 out = Ok first ∧
       PyJson.getitem first "rows" = Ok sent_rows ∧
       rows_of sent_rows = Some rs ∧
       Forall2 (fun j row => ∃ t, Cursor.convert_row convs j = Ok t ∧
                                   row = Tuple t) rs rows) ∧
    rowcount c' = JInt (Z.of_nat (length rows)) ∧
    (fetchone_times (S (length rows)) (c', w')).1 =
      Ok (map Some rows ++ [None]) ∧
    ∃ s1, Cursor.fetchall (c', w') = (Ok rows, s1) ∧
          Cursor.fetchall s1 = (Ok [], s1) ∧
          _rows s1.1 = [] ∧
          (∀ n, fetchone_times n s1 = (Ok (replicate n None), s1)) ∧
          (∀ size, Cursor.fetchmany size s1 = (Ok [], s1)).
Proof.
  intros Hq H.
  apply execute_ok_inv in H as (conn & sess & res & out & Ha & _ & Hout & H).
  unfold sql_type_of in H. rewrite query_re_is_query_type, Hq in H.
  apply load_query_ok in H
    as (first & columns & items & cds & sent_rows & rs & ts
        & H0 & _ & _ & _ & Hr & Hrs & Hts & -> & ->).
  exists (map Tuple ts). split; [|split; [|split]].
  - exists conn, sess, res, out, first, sent_rows, rs, cds.*1.
    repeat (split; [done|]).
    apply mapM_result_Forall2 in Hts. clear -Hts.
    induction Hts; cbn; constructor; eauto.
  - cbn. rewrite length_map, (mapM_result_length _ _ _ Hts). reflexivity.
  - rewrite (fetchone_times_rows (map Tuple ts)) by reflexivity. reflexivity.
  - cbn. eexists. split; [rewrite fetchall_eq by no_none; reflexivity|]. cbn.
    split; [rewrite fetchall_eq by no_none; reflexivity|].
    split; [reflexivity|].
    split; [intros n; apply fetchone_times_drained|].
    intros size. rewrite fetchmany_eq by no_none. destruct (0 <? _); reflexivity.
Qed.

(** C4 at the demo server: three rows, then [None]. *)
Lemma fetch_after_query_witness :
  let s' := (Demo.cur3,
             after_request
               (request_of Demo.conn Demo.session "select a from t" None)
               Demo.world) in
  is_query_type "select a from t" = true ∧
  Cursor.execute "select a from t" None (Demo.cur, Demo.world) = (Ok tt, s') ∧
  ∃ rows : list (Row json),
    rowcount Demo.cur3 = JInt (Z.of_nat (length rows)) ∧
    (fetchone_times (S (length rows)) s').1 =
      Ok (map Some rows ++ [None]).
Proof.
  cbv zeta.
  assert (He : Cursor.execute "select a from t" None (Demo.cur, Demo.world) =
               (Ok tt, (Demo.cur3,
                        after_request
                          (request_of Demo.conn Demo.session
                             "select a from t" None)
                          Demo.world))) by reflexivity.
  split; [reflexivity|]. split; [exact He|].
  destruct (fetch_after_query "select a from t" None Demo.cur Demo.world _ _
              eq_refl He)
    as (rows & _ & Hn & Hf & _).
  exists rows. split; assumption.
Defined.

(** *** C5 *)

(** C5.  The pattern of [execute] matches a statement exactly when the
    statement, stripped of leading whitespace, begins with [select] or
    [show] in any case followed by whitespace.  Through an open
    connection, [execute] posts a statement so classified to
    [query/tuples] and any other to [exec], both joined to the base URL,
    and sends nothing else. *)
Theorem execute_dispatch {V : Type} `{!Env V} q p (c : Cursor V) w
  conn sess :
  opened c w conn sess ->
  Regex.match_ query_re q = is_query_type q ∧
  sent (Cursor.execute q p (c, w)).2.2 =
  sent w ++
  [mkRequest POST
     (urljoin (_url conn)
        (if is_query_type q then "query/tuples" else "exec"))
     (auth sess) (headers sess)
     (Some (Cursor.request_data (_database conn) q p))].
Proof.
  intros Ho. split; [apply query_re_is_query_type|].
  rewrite (execute_opened_sent _ _ _ _ _ _ Ho). cbn.
  unfold request_of, endpoint. rewrite query_re_is_query_type. reflexivity.
Qed.

(** C5 at the two examples of the specification, and at a statement
    with leading whitespace, mixed case and a long s. *)
Lemma execute_dispatch_witness :
  opened Demo.cur Demo.world Demo.conn Demo.session ∧
  sent (Cursor.execute "SELECT 1" None (Demo.cur, Demo.world)).2.2
  = [mkRequest POST "http://localhost:3306/api/v1/query/tuples"
       (Some ("user", "secret"))
       [("Content-Type", "application/json"); ("Accept", "application/json")]
       (Some (JObj [("sql", JStr "SELECT 1")]))] ∧
  sent (Cursor.execute "CREATE TABLE t(x INT)" None (Demo.cur, Demo.world)).2.2
  = [mkRequest POST "http://localhost:3306/api/v1/exec"
       (Some ("user", "secret"))
       [("Content-Type", "application/json"); ("Accept", "application/json")]
       (Some (JObj [("sql", JStr "CREATE TABLE t(x INT)")]))] ∧
  sent (Cursor.execute "  ſHow tables" None (Demo.cur, Demo.world)).2.2
  = [mkRequest POST "http://localhost:3306/api/v1/query/tuples"
       (Some ("user", "secret"))
       [("Content-Type", "application/json"); ("Accept", "application/json")]
       (Some (JObj [("sql", JStr "  ſHow tables")]))].
Proof.
  split; [apply demo_opened; reflexivity|].
  split; [|split].
  - exact (proj2 (execute_dispatch "SELECT 1" None Demo.cur
                    Demo.world Demo.conn Demo.session
                    (demo_opened Demo.cur eq_refl))).
  - exact (proj2 (execute_dispatch "CREATE TABLE t(x INT)" None Demo.cur
                    Demo.world Demo.conn Demo.session
                    (demo_opened Demo.cur eq_refl))).
  - exact (proj2 (execute_dispatch "  ſHow tables" None Demo.cur
                    Demo.world Demo.conn Demo.session
                    (demo_opened Demo.cur eq_refl))).
Defined.

(** *** C6 *)

(** C6.  An [execute] answered with a status of 400 or more raises and
    leaves the cursor as it was before the call: description, buffer and
    [rowcount] are the ones the last successful [execute] and the fetches
    since have left.  Only the request has been added to the world. *)
Theorem execute_failure_keeps_cursor {V : Type} `{!Env V} q p
  (c : Cursor V) w conn sess res :
  answered q p c w conn sess res ->
  400 <= status_code res ->
  ∃ e, Cursor.execute q p (c, w) =
       (Raise e, (c, after_request (request_of conn sess q p) w)).
Proof.
  intros Ha Hs. rewrite (execute_answered _ _ _ _ _ _ _ Ha).
  apply Z.leb_le in Hs. rewrite Hs. apply raise_for_status_raises.
Qed.

(** C6 at a cursor holding the three rows of a previous query. *)
Lemma execute_failure_keeps_cursor_witness :
  let res := mkResponse 400 "1146: Table 'x' doesn't exist" None in
  answered "select a from x" None Demo.cur3 Demo.world Demo.conn Demo.session
    res ∧
  400 <= status_code res ∧
  ∃ e, Cursor.execute "select a from x" None (Demo.cur3, Demo.world) =
       (Raise e,
        (Demo.cur3,
         after_request
           (request_of Demo.conn Demo.session "select a from x" None)
           Demo.world)).
Proof.
  cbv zeta.
  assert (Ha : answered "select a from x" None Demo.cur3 Demo.world Demo.conn
                 Demo.session
                 (mkResponse 400 "1146: Table 'x' doesn't exist" None)).
  { split; [apply demo_opened|]; reflexivity. }
  split; [exact Ha|]. split; [cbn; lia|].
  apply (execute_failure_keeps_cursor _ _ _ _ _ _ _ Ha). cbn. lia.
Defined.

(** *** C7 *)

(** C7.  After a successful [execute] of a query-type statement,
    [rowcount] is the number of rows of the response and the description
    has one descriptor per column of the response, each the 9-tuple of
    the column's name, the name of its type, four [None], its [nullable]
    member or [False], and two zeros.  After a successful [execute] of
    any other statement, [rowcount] is the [rowsAffected] of the
    response, whatever value that is, the description is [None] and the
    buffer is empty. *)
Theorem execute_rowcount_description {V : Type} `{!Env V} q p
  (c : Cursor V) w c' w' :
  Cursor.execute q p (c, w) = (Ok tt, (c', w')) ->
  ∃ conn sess res out,
    answered q p c w conn sess res ∧ body_json res = Some out ∧
    if is_query_type q then
      ∃ first columns items sent_rows rs ds,
        Cursor.result0 out = Ok first ∧
        PyJson.get first "columns" (JArr []) = Ok columns ∧
        PyJson.iter columns = Ok items ∧
        PyJson.getitem first "rows" = Ok sent_rows ∧
        rows_of sent_rows = Some rs ∧
        rowcount c' = JInt (Z.of_nat (length rs)) ∧
        length (_rows c') = length rs ∧
        description c' = Some ds ∧
        length ds = length items ∧
        Forall2 describes items ds
    else
      ∃ affected, PyJson.getitem out "rowsAffected" = Ok affected ∧
           rowcount c' = affected ∧ description c' = None ∧ _rows c' = [].
Proof.
  intros H.
  apply execute_ok_inv in H as (conn & sess & res & out & Ha & _ & Hout & H).
  exists conn, sess, res, out. split; [exact Ha|]. split; [exact Hout|].
  unfold sql_type_of in H. rewrite query_re_is_query_type in H.
  destruct (is_query_type q).
  - apply load_query_ok in H
      as (first & columns & items & cds & sent_rows & rs & ts
          & H0 & Hc & Hi & Hm & Hr & Hrs & Hts & -> & _).
    exists first, columns, items, sent_rows, rs, cds.*2. cbn.
    repeat (split; [done|]). split.
    { rewrite length_map. eapply mapM_result_length. exact Hts. }
    split; [reflexivity|]. split.
    + rewrite length_fmap. eapply mapM_result_length. exact Hm.
    + apply mapM_result_Forall2 in Hm. clear -Hm.
      induction Hm as [|item [conv d] items cds Hcol _ IH]; cbn;
        constructor; auto.
      eapply column_describes. exact Hcol.
  - apply load_exec_ok in H as (n & Hn & -> & _). exists n. done.
Qed.

(** C7 at the demo server: a query with one column and three rows,
    and a statement whose answer gives [rowsAffected] as a string. *)
Lemma execute_rowcount_description_witness :
  let c2 := set_rowcount (JStr "3") (reset Demo.cur3) in
  let w2 := after_request
              (request_of Demo.conn Demo.session "delete from t" None)
              Demo.world in
  Cursor.execute "select a from t" None (Demo.cur, Demo.world) =
    (Ok tt, (Demo.cur3,
             after_request
               (request_of Demo.conn Demo.session "select a from t" None)
               Demo.world)) ∧
  (∃ conn sess res out,
     answered "select a from t" None Demo.cur Demo.world conn sess res ∧
     body_json res = Some out) ∧
  Cursor.execute "delete from t" None (Demo.cur3, Demo.world) =
    (Ok tt, (c2, w2)) ∧
  (∃ conn sess res out affected,
     answered "delete from t" None Demo.cur3 Demo.world conn sess res ∧
     body_json res = Some out ∧
     PyJson.getitem out "rowsAffected" = Ok affected ∧
     rowcount c2 = affected ∧ description c2 = None ∧ _rows c2 = []).
Proof.
  cbv zeta.
  assert (He : Cursor.execute "select a from t" None (Demo.cur, Demo.world) =
               (Ok tt, (Demo.cur3,
                        after_request
                          (request_of Demo.conn Demo.session
                             "select a from t" None)
                          Demo.world))) by reflexivity.
  assert (He2 : Cursor.execute "delete from t" None (Demo.cur3, Demo.world) =
                (Ok tt, (set_rowcount (JStr "3") (reset Demo.cur3),
                         after_request
                           (request_of Demo.conn Demo.session
                              "delete from t" None)
                           Demo.world))) by reflexivity.
  split; [exact He|]. split.
  { destruct (execute_rowcount_description _ _ _ _ _ _ He)
      as (conn & sess & res & out & Ha & Hout & _).
    exists conn, sess, res, out. split; assumption. }
  split; [exact He2|].
  destruct (execute_rowcount_description _ _ _ _ _ _ He2)
    as (conn & sess & res & out & Ha & Hout & affected & Hg & Hrest).
  exists conn, sess, res, out, affected. done.
Defined.

(** *** C8 *)

(** C8 fails as stated: the probe goes through the session of the
    connection, so it carries the credentials set on that session. *)
Lemma ping_carries_credentials :
  map req_auth (sent (Connection.is_connected 0%nat Demo.world).2)
    = [Some ("user", "secret")] ∧
  map req_auth (sent (Connection.is_connected 0%nat Demo.world).2) ≠ [None].
Proof. split; [reflexivity|discriminate]. Qed.

(** C8, as the code has it.  On an open connection [is_connected()]
    sends one GET through the session of the connection, with the
    credentials of that session, to [protocol://host:port/ping] (for a
    base URL built by the constructor from a protocol and a host free of
    slashes).  It returns [True] exactly when the status is at most 400
    and the body is ["pong"].  [ping(reconnect)] makes the same probe and
    raises [InterfaceError] 2006 exactly when the answer is [False],
    whatever [reconnect] is. *)
Theorem is_connected_ping {V : Type} `{!Env V} (r : nat) (w : World)
  conn sess res (reconnect : bool) :
  conns w !! r = Some conn ->
  _sess conn = Some sess ->
  transport (sent w ++ [ping_request conn sess]) = Some res ->
  req_method (ping_request conn sess) = GET ∧
  req_auth (ping_request conn sess) = auth sess ∧
  (∀ protocol host port version,
     _url conn = protocol ++ "://" ++ host ++ ":"
                 ++ PyStr.str_of_int port ++ "/api/" ++ version ++ "/" ->
     PyStr.contains 47%N protocol = false ->
     PyStr.contains 47%N host = false ->
     req_url (ping_request conn sess) =
     protocol ++ "://" ++ host ++ ":" ++ PyStr.str_of_int port
     ++ "/ping") ∧
  Connection.is_connected r w =
    (Ok (is_pong res), after_request (ping_request conn sess) w) ∧
  (is_pong res = true <-> status_code res <= 400 ∧ text res = "pong") ∧
  Connection.ping r reconnect w =
    (if is_pong res then Ok tt
     else Raise (InterfaceError 2006
                   "Could not connect to SingleStore database"),
     after_request (ping_request conn sess) w).
Proof.
  intros Hr Hs Ht.
  assert (Hic : Connection.is_connected r w =
                (Ok (is_pong res), after_request (ping_request conn sess) w)).
  { unfold Connection.is_connected, Connection.deref, Connection.request.
    unfold_M. rewrite Hr. cbn. rewrite Hs. cbn.
    unfold ping_request in Ht. rewrite Ht. cbn. unfold is_pong.
    destruct (_ && _); reflexivity. }
  split; [reflexivity|]. split; [reflexivity|]. split.
  { intros protocol host port version Hu Hp Hh. cbn.
    apply (ping_url_of_base _ _ _ _ _ Hu Hp Hh). }
  split; [exact Hic|]. split.
  { unfold is_pong. rewrite andb_true_iff, Z.leb_le, PyStr_eqb_eq. done. }
  unfold Connection.ping. unfold mbind, M_bind. rewrite Hic.
  destruct (is_pong res); reflexivity.
Qed.

(** C8 at the demo server, which answers ["pong"]. *)
Lemma is_connected_ping_witness :
  conns Demo.world !! 0%nat = Some Demo.conn ∧
  _sess Demo.conn = Some Demo.session ∧
  transport (sent Demo.world ++ [ping_request Demo.conn Demo.session])
    = Some (mkResponse 200 "pong" None) ∧
  Connection.is_connected 0%nat Demo.world =
    (Ok true, after_request (ping_request Demo.conn Demo.session) Demo.world).
Proof.
  split; [reflexivity|]. split; [reflexivity|]. split; [reflexivity|].
  apply (is_connected_ping 0%nat Demo.world Demo.conn Demo.session
           (mkResponse 200 "pong" None) false); reflexivity.
Defined.

(** *** C9 *)

(** C9.  [Cursor.close()] removes the connection reference of the cursor
    and nothing else: the buffer, the description, [rowcount],
    [arraysize] and the world, so the connection and its session, are as
    before.  It does not raise, and closing again changes nothing. *)
Theorem cursor_close_frame {V : Type} (c : Cursor V) (w : World) :
  ∃ c', Cursor.close (c, w) = (Ok tt, (c', w)) ∧
        connection c' = None ∧
        _rows c' = _rows c ∧ description c' = description c ∧
        rowcount c' = rowcount c ∧ arraysize c' = arraysize c ∧
        messages c' = messages c ∧ lastrowid c' = lastrowid c ∧
        Cursor.close (c', w) = (Ok tt, (c', w)).
Proof.
  unfold Cursor.close. unfold_M. destruct (connection c) eqn:Hc.
  - exists (set_connection None c). cbn. done.
  - exists c. rewrite Hc. done.
Qed.

(** *** C10 *)

(** C10.  [executemany(query, [])] is [executemany(query)]: one
    [execute(query)] without parameters. *)
Theorem executemany_empty_sequence {V : Type} `{!Env V} (query : str)
  (s : CState V) :
  Cursor.executemany query (Some []) s = Cursor.executemany query None s ∧
  Cursor.executemany query None s = Cursor.execute query None s.
Proof. split; reflexivity. Qed.

(* ================================================================== *)
(** ** Further properties of the two classes *)
(* ================================================================== *)

Section Invariants.
Context {V : Type} `{!Env V}.

Lemma same_settings_refl (c : Cursor V) : same_settings c c.
Proof. repeat split. Qed.

Lemma describe_keeps items : forall convs (c : Cursor V) w,
  let c' := (Cursor.describe items convs (c, w)).2.1 in
  same_settings c c' ∧ rowcount c' = rowcount c ∧ _rows c' = _rows c ∧
  (is_Some (description c) -> is_Some (description c')).
Proof.
  induction items as [|item rest IH]; intros convs c w; cbn.
  { repeat split; auto. }
  unfold_M. destruct (Cursor.column item) as [[conv cd]|]; cbn.
  2:{ repeat split; auto. }
  destruct (description c) as [d|] eqn:Hd; cbn.
  2:{ repeat split; auto. rewrite Hd. auto. }
  match goal with |- context [Cursor.describe rest ?cv (?c1, w)] =>
    specialize (IH cv c1 w); cbn in IH;
    destruct (Cursor.describe rest cv (c1, w)) as [[] [c2 w2]]
  end; cbn in *; destruct IH as ((? & ? & ? & ?) & ? & ? & ?);
    repeat split; eauto.
Qed.

Lemma convert_rows_keeps convs rs : forall i (c : Cursor V) w,
  let c' := (Cursor.convert_rows convs i rs (c, w)).2.1 in
  same_settings c c' ∧ rowcount c' = rowcount c ∧
  description c' = description c.
Proof.
  induction rs as [|row rest IH]; intros i c w; cbn.
  { repeat split; auto. }
  unfold_M. destruct (Cursor.convert_row convs row); cbn.
  2:{ repeat split; auto. }
  match goal with |- context [Cursor.convert_rows convs ?j rest (?c1, w)] =>
    specialize (IH j c1 w); cbn in IH;
    destruct (Cursor.convert_rows convs j rest (c1, w)) as [[] [c2 w2]]
  end; cbn in *; destruct IH as ((? & ? & ? & ?) & ? & ?);
    repeat split; eauto.
Qed.

(** Whatever [load] does, it keeps the settings of the cursor; when it
    raises, [rowcount] is the 0 of the reset, and for a statement that
    is not a query the cursor is the reset one. *)
Lemma load_keeps sql out (c : Cursor V) w :
  let r := Cursor.load sql out (c, w) in
  same_settings c r.2.1 ∧
  (∀ e, r.1 = Raise e ->
        rowcount r.2.1 = JInt 0 ∧
        (PyStr.eqb sql "query" = false -> r.2.1 = reset c) ∧
        (PyStr.eqb sql "query" = true -> is_Some (description r.2.1))).
Proof.
  unfold Cursor.load. unfold_M. destruct (PyStr.eqb sql "query").
  - destruct (Cursor.result0 out) as [first|]; cbn.
    2:{ split; [repeat split|]. intros ? _. repeat split; eauto. discriminate. }
    destruct (PyJson.get first _ _) as [columns|]; cbn.
    2:{ split; [repeat split|]. intros ? _. repeat split; eauto. discriminate. }
    destruct (PyJson.iter columns) as [items|]; cbn.
    2:{ split; [repeat split|]. intros ? _. repeat split; eauto. discriminate. }
    match goal with |- context [Cursor.describe items [] (?c0, w)] =>
      generalize (describe_keeps items [] c0 w);
      generalize (describe_world items [] c0 w);
      destruct (Cursor.describe items [] (c0, w)) as [[convs|] [c1 w1]]
    end; cbn; intros -> ((? & ? & ? & ?) & Hrc & Hrows & Hdesc).
    2:{ split; [repeat split; auto|]. intros ? _. repeat split; eauto. discriminate. }
    destruct (PyJson.getitem first "rows") as [rows|]; cbn.
    2:{ split; [repeat split; auto|]. intros ? _. repeat split; eauto. discriminate. }
    destruct rows as [| | | |[|ch t]|rs|[|[k v] ms]]; cbn;
      try (destruct (mapM _ (zip _ _)); cbn);
      try (split; [repeat split; auto|]; intros ? He;
           (discriminate He || (repeat split; eauto; discriminate))).
    match goal with |- context [Cursor.convert_rows ?cv ?i ?rs (?c0, w)] =>
      generalize (convert_rows_keeps cv rs i c0 w);
      generalize (convert_rows_world cv rs i c0 w);
      destruct (Cursor.convert_rows cv i rs (c0, w)) as [[[]|] [c2 w2]]
    end; cbn; intros -> ((? & ? & ? & ?) & Hrc2 & Hdesc2); cbn in *.
    + split; [repeat split; cbn; congruence|]. intros ? He. discriminate.
    + split; [repeat split; cbn; congruence|]. intros ? _.
      split; [congruence|]. split; [discriminate|]. intros _.
      rewrite Hdesc2. eauto.
  - destruct (PyJson.getitem out _) as [a|]; cbn.
    2:{ split; [repeat split|]. intros ? _. repeat split; eauto. discriminate. }
    split; [repeat split|]. intros ? He. discriminate.
Qed.

End Invariants.

Lemma execute_dangling {V : Type} `{!Env V} q p (c : Cursor V) w r :
  connection c = Some r -> conns w !! r = None ->
  Cursor.execute q p (c, w) = (Raise ReferenceError, (c, w)).
Proof.
  intros Hc Hr. unfold Cursor.execute, Connection.deref. unfold_M.
  rewrite Hc. cbn. rewrite Hr. reflexivity.
Qed.

Lemma execute_settings {V : Type} `{!Env V} q p (c : Cursor V) w :
  same_settings c (Cursor.execute q p (c, w)).2.1 ∧
  conns (Cursor.execute q p (c, w)).2.2 = conns w.
Proof.
  destruct (connection c) as [r|] eqn:Hc;
    [|rewrite execute_closed by done; split; [apply same_settings_refl|done]].
  destruct (conns w !! r) as [conn|] eqn:Hr;
    [|rewrite (execute_dangling _ _ _ _ _ Hc Hr);
      split; [apply same_settings_refl|done]].
  destruct (_sess conn) as [sess|] eqn:Hs;
    [|rewrite (execute_session_closed _ _ _ _ _ _ Hc Hr Hs);
      split; [apply same_settings_refl|done]].
  assert (Ho : opened c w conn sess) by (exists r; done).
  split; [|rewrite (execute_opened_sent _ _ _ _ _ _ Ho); reflexivity].
  rewrite (execute_opened _ _ _ _ _ _ Ho). cbn.
  destruct (transport _) as [res|]; [|apply same_settings_refl].
  destruct (400 <=? status_code res).
  - destruct (raise_for_status_raises (A:=unit) res
                (c, after_request (request_of conn sess q p) w)) as [e ->].
    apply same_settings_refl.
  - unfold_M. destruct (body_json res) as [out|]; cbn;
      [|apply same_settings_refl].
    apply load_keeps.
Qed.

(** X3.  Whatever [execute] does, it keeps the connection reference
    of the cursor, its [arraysize], [messages] and [lastrowid], and it
    changes no connection of the store. *)
Theorem execute_keeps_settings {V : Type} `{!Env V} q p (c : Cursor V) w :
  same_settings c (Cursor.execute q p (c, w)).2.1 ∧
  conns (Cursor.execute q p (c, w)).2.2 = conns w.
Proof. apply execute_settings. Qed.

(** X4.  When the transport fails, [execute] raises its exception;
    when the response has a status below 400 and a body that is not JSON,
    [execute] raises the decoding error.  In both cases one request has
    been sent and the cursor is as before the call. *)
Theorem execute_undecoded_keeps_cursor {V : Type} `{!Env V} q p
  (c : Cursor V) w conn sess :
  opened c w conn sess ->
  let rq := request_of conn sess q p in
  (transport (sent w ++ [rq]) = None ->
   Cursor.execute q p (c, w) =
   (Raise RequestException, (c, after_request rq w))) ∧
  (∀ res, transport (sent w ++ [rq]) = Some res ->
          status_code res < 400 -> body_json res = None ->
          Cursor.execute q p (c, w) =
          (Raise JSONDecodeError, (c, after_request rq w))).
Proof.
  intros Ho rq. rewrite (execute_opened _ _ _ _ _ _ Ho). cbn. fold rq. split.
  - intros ->. reflexivity.
  - intros res -> Hs Hb. apply Z.leb_gt in Hs. rewrite Hs. unfold_M.
    rewrite Hb. reflexivity.
Qed.

(** X5.  When the response has a status below 400 and decodes, and
    [execute] raises all the same (a key is missing, a type is unknown, a
    converter fails), the previous results are gone: [rowcount] is 0; for
    a statement that is not a query the cursor is the reset one (no
    description, empty buffer), and for a query the description is
    already the list being filled. *)
Theorem execute_payload_error_resets {V : Type} `{!Env V} q p
  (c : Cursor V) w conn sess res out e c' w' :
  answered q p c w conn sess res ->
  status_code res < 400 ->
  body_json res = Some out ->
  Cursor.execute q p (c, w) = (Raise e, (c', w')) ->
  rowcount c' = JInt 0 ∧
  (if is_query_type q then is_Some (description c') else c' = reset c).
Proof.
  intros Ha Hs Hb H. rewrite (execute_answered _ _ _ _ _ _ _ Ha) in H.
  apply Z.leb_gt in Hs. rewrite Hs in H. unfold_M_in H. rewrite Hb in H.
  cbn in H.
  destruct (load_keeps (sql_type_of q) out c
              (after_request (request_of conn sess q p) w)) as [_ Hk].
  cbn in Hk. rewrite H in Hk. destruct (Hk e eq_refl) as (Hrc & Hexec & Hq).
  split; [exact Hrc|]. unfold sql_type_of in *.
  rewrite query_re_is_query_type in *.
  destruct (is_query_type q); [apply Hq|apply Hexec]; reflexivity.
Qed.

Section Many.
Context {V : Type} `{!Env V}.







End Many.



Section Fetches.
Context {V : Type} `{!Env V}.

(** The state after [n] calls of [fetchone]. *)
Lemma fetchone_times_state n : forall (c : Cursor V) w,
  let r := fetchone_times n (c, w) in
  r.1 = Ok (map Some (take n (_rows c))
            ++ replicate (n - length (_rows c)) None) ∧
  r.2.2 = w ∧
  _rows r.2.1 = drop n (_rows c) ∧
  rowcount r.2.1 = rowcount c ∧
  description r.2.1 =
    (if (n <=? length (_rows c))%nat then description c else None) ∧
  same_settings c r.2.1.
Proof.
  induction n as [|n IH]; intros c w.
  { cbn. repeat split. }
  change (fetchone_times (S n))
    with (r ← Cursor.fetchone; rs ← fetchone_times n; mret (r :: rs)
          : M (CState V) _).
  unfold mbind, M_bind. destruct (_rows c) as [|row rest] eqn:Hr.
  - rewrite (fetchone_nil _ _ Hr).
    specialize (IH (set_description None c) w). cbn in IH.
    destruct (fetchone_times n (set_description None c, w)) as [[rs|e] [c1 w1]];
      cbn in *; destruct IH as (Hres & Hw & Hrows & Hrc & Hd & Hs);
      [|discriminate].
    rewrite Hr in *. injection Hres as ->. rewrite take_nil in *. cbn in *.
    rewrite Nat.sub_0_r, drop_nil in *.
    destruct Hs as (? & ? & ? & ?). cbn in *.
    repeat split; try tauto. destruct (n <=? 0)%nat; exact Hd.
  - rewrite (fetchone_cons _ _ _ _ Hr).
    specialize (IH (set_rows rest c) w). cbn in IH.
    destruct (fetchone_times n (set_rows rest c, w)) as [[rs|e] [c1 w1]];
      cbn in *; destruct IH as (Hres & Hw & Hrows & Hrc & Hd & Hs);
      [|discriminate].
    injection Hres as ->. destruct Hs as (? & ? & ? & ?). cbn in *.
    repeat split; tauto.
Qed.

End Fetches.

Lemma rownumber_eq {V : Type} (c : Cursor V) w :
  Cursor.rownumber (c, w) =
  (PyJson.sub_int (rowcount c) (Z.of_nat (length (_rows c))), (c, w)).
Proof.
  unfold Cursor.rownumber. unfold_M.
  destruct (PyJson.sub_int _ _); reflexivity.
Qed.

(** What a successful [execute] leaves in the buffer and in [rowcount]. *)
Lemma execute_ok_buffer {V : Type} `{!Env V} q p (c : Cursor V) w c' w' :
  Cursor.execute q p (c, w) = (Ok tt, (c', w')) ->
  if is_query_type q
  then rowcount c' = JInt (Z.of_nat (length (_rows c'))) ∧
       is_Some (description c') ∧ after_none (_rows c') = None
  else _rows c' = [] ∧ description c' = None.
Proof.
  intros H. apply execute_ok_inv in H as (conn & sess & res & out & _ & _ & _ & H).
  unfold sql_type_of in H. rewrite query_re_is_query_type in H.
  destruct (is_query_type q).
  - apply load_query_ok in H
      as (first & columns & items & cds & sent_rows & rs & ts
          & _ & _ & _ & _ & _ & _ & Hts & -> & _).
    cbn. rewrite length_map, (mapM_result_length _ _ _ Hts).
    split; [reflexivity|]. split; [eauto|apply after_none_tuples].
  - apply load_exec_ok in H as (n & _ & -> & _). done.
Qed.

(** X8.  After a successful [execute] of a query, [rowcount] is an
    [int], and after [n] calls of [fetchone], [rownumber] is the number
    of rows fetched, [min(n, rowcount)].  After a successful [execute]
    of another statement, whatever is fetched, [rownumber] is
    [rowcount - 0] for the [rowsAffected] that [rowcount] holds: that
    number when it is an [int], 0 or 1 when it is a [bool], a [float]
    when it is one, and a [TypeError] for a string, a [null], an array
    or an object. *)
Theorem rownumber_counts_fetched {V : Type} `{!Env V} q p (c : Cursor V) w
  c' w' (n : nat) :
  Cursor.execute q p (c, w) = (Ok tt, (c', w')) ->
  if is_query_type q then
    ∃ k, rowcount c' = JInt k ∧
         (Cursor.rownumber (fetchone_times n (c', w')).2).1 =
         Ok (NInt (Z.min (Z.of_nat n) k))
  else
    (Cursor.rownumber (fetchone_times n (c', w')).2).1 =
    match rowcount c' with
    | JInt m => Ok (NInt m)
    | JBool b => Ok (NInt (if b then 1 else 0))
    | JFloat x => Ok (NFloatSub x 0)
    | JNull | JStr _ | JArr _ | JObj _ => Raise TypeError
    end.
Proof.
  intros H. apply execute_ok_buffer in H.
  destruct (fetchone_times_state n c' w') as (_ & _ & Hrows & Hrc & _).
  destruct (fetchone_times n (c', w')) as [r [c1 w1]]. cbn in *.
  rewrite rownumber_eq. cbn. rewrite Hrows, Hrc, length_drop.
  destruct (is_query_type q).
  - destruct H as (Hk & _ & _). eexists. split; [exact Hk|].
    rewrite Hk. cbn. do 2 f_equal. lia.
  - destruct H as [-> _]. cbn.
    destruct (rowcount c') as [|[]| | | | |]; cbn; rewrite ?Z.sub_0_r; reflexivity.
Qed.

(** X9.  After a successful [execute] of a query the description is
    set, and it stays the same while [fetchone] returns rows: it is reset
    to [None] by the call that finds the buffer empty, the one after
    [rowcount] calls.  [fetchall] always makes that call. *)
Theorem description_until_exhausted {V : Type} `{!Env V} q p (c : Cursor V)
  w c' w' :
  is_query_type q = true ->
  Cursor.execute q p (c, w) = (Ok tt, (c', w')) ->
  is_Some (description c') ∧
  (∃ k, rowcount c' = JInt k ∧
    ∀ n : nat,
     description (fetchone_times n (c', w')).2.1 =
     if Z.of_nat n <=? k then description c' else None) ∧
  description (Cursor.fetchall (c', w')).2.1 = None.
Proof.
  intros Hq H. apply execute_ok_buffer in H. rewrite Hq in H.
  destruct H as (Hrc & Hd & Hnone). split; [exact Hd|]. split.
  - eexists. split; [exact Hrc|].
    intros n. destruct (fetchone_times_state n c' w') as (_ & _ & _ & _ & Hdesc & _).
    cbn in Hdesc. rewrite Hdesc.
    destruct (Nat.leb_spec n (length (_rows c')));
      destruct (Z.leb_spec (Z.of_nat n) (Z.of_nat (length (_rows c'))));
      try reflexivity; lia.
  - rewrite fetchall_eq by exact Hnone. reflexivity.
Qed.

(** X11.  Once [arraysize] is zero or negative, [fetchmany()] and
    [fetchmany(n)] for [n <= 0] return the empty list and leave the cursor
    untouched, rows in the buffer or not. *)
Theorem fetchmany_nonpositive {V : Type} (size : option Z) (c : Cursor V) w :
  arraysize c <= 0 ->
  (∀ n, size = Some n -> n <= 0) ->
  Cursor.fetchmany size (c, w) = (Ok [], (c, w)).
Proof.
  intros Ha Hn. rewrite fetchmany_until.
  assert (He : effective_size size c <= 0).
  { unfold effective_size. destruct size as [n|]; [|exact Ha].
    specialize (Hn n eq_refl).
    destruct (Z.eqb_spec n 0); cbn; [exact Ha|].
    destruct (Z.leb_spec n 0); [exact Ha|lia]. }
  destruct (Z.ltb_spec 0 (effective_size size c)); [lia|reflexivity].
Qed.



(** X12.  On a cursor that has executed nothing, [fetchone] returns
    [None], [fetchall] and [fetchmany] return the empty list, [next]
    raises [StopIteration] and [rownumber] is 0; none of them raises an
    error of the interface or changes the cursor. *)
Theorem fresh_cursor_has_no_rows {V : Type} (r : nat) (w : World) :
  let s : CState V := (Connection.cursor r, w) in
  Cursor.fetchone s = (Ok None, s) ∧
  Cursor.fetchall s = (Ok [], s) ∧
  (∀ size, Cursor.fetchmany size s = (Ok [], s)) ∧
  Cursor.next s = (Raise StopIteration, s) ∧
  Cursor.rownumber s = (Ok (NInt 0), s).
Proof.
  cbv zeta. split; [reflexivity|].
  split; [rewrite fetchall_eq by reflexivity; reflexivity|].
  split; [|split; reflexivity].
  intros size. rewrite fetchmany_eq by reflexivity.
  destruct (0 <? _); reflexivity.
Qed.

(** X16.  [commit] and [rollback] send nothing and change nothing:
    they return normally when [autocommit] is on and raise
    [NotSupportedError(0, 'operation not supported')] when it is off, and
    [rollback] does whatever [commit] does. *)
Theorem commit_rollback_need_autocommit (r : nat) (w : World) conn :
  conns w !! r = Some conn ->
  Connection.commit r w =
    (if autocommit conn then Ok tt
     else Raise (NotSupportedError 0 "operation not supported"), w) ∧
  Connection.rollback r w = Connection.commit r w.
Proof.
  intros Hr. unfold Connection.commit, Connection.rollback, Connection.deref.
  unfold_M. rewrite Hr. cbn. destruct (autocommit conn); done.
Qed.


Lemma close_twice r w :
  Connection.close r (Connection.close r w).2 =
  (Ok tt, (Connection.close r w).2).
Proof.
  unfold Connection.close, Connection.update. cbn. f_equal. f_equal.
  apply map_eq. intros i. destruct (decide (i = r)) as [->|Hne].
  - rewrite !lookup_alter_eq. destruct (conns w !! r); reflexivity.
  - rewrite !lookup_alter_ne by done. reflexivity.
Qed.

(** X14.  [Connection.close()] returns normally, sends nothing, drops
    the session of that connection and leaves every other connection
    alone; closing again changes nothing.  From then on [_get], [_post]
    and [_delete] raise the connection-closed error, [is_connected]
    answers [False] and [ping] raises [InterfaceError] 2006, all without
    a request. *)
Theorem connection_close_effects {V : Type} `{!Env V} (r : nat) (w : World)
  conn (path : str) (data : json) (reconnect : bool) :
  conns w !! r = Some conn ->
  let w' := (Connection.close r w).2 in
  (Connection.close r w).1 = Ok tt ∧
  sent w' = sent w ∧
  conns w' !! r = Some (set_sess None conn) ∧
  (∀ r', r' ≠ r -> conns w' !! r' = conns w !! r') ∧
  Connection.close r w' = (Ok tt, w') ∧
  Connection._get r path w' = (Raise connection_closed, w') ∧
  Connection._post r path data w' = (Raise connection_closed, w') ∧
  Connection._delete r path w' = (Raise connection_closed, w') ∧
  Connection.is_connected r w' = (Ok false, w') ∧
  Connection.ping r reconnect w' =
    (Raise (InterfaceError 2006 "Could not connect to SingleStore database"),
     w').
Proof.
  intros Hr. cbv zeta.
  assert (Hw : conns (Connection.close r w).2 !! r = Some (set_sess None conn)).
  { cbn. rewrite lookup_alter_eq, Hr. reflexivity. }
  split; [reflexivity|]. split; [reflexivity|]. split; [exact Hw|].
  split. { intros r' Hne. cbn. rewrite lookup_alter_ne by done. reflexivity. }
  split; [apply close_twice|].
  assert (Hic : Connection.is_connected r (Connection.close r w).2 =
                (Ok false, (Connection.close r w).2)).
  { apply (is_connected_closed _ _ _ Hw). reflexivity. }
  unfold Connection._get, Connection._post, Connection._delete,
    Connection.ping, Connection.deref.
  unfold mbind, M_bind. rewrite Hw, Hic. cbn. done.
Qed.

(** X15.  [Cursor.is_connected()] on a bound cursor is the probe of its
    connection; once the cursor is closed, or its connection is, it
    answers [False] without a request. *)
Theorem cursor_is_connected_delegates {V : Type} `{!Env V} (c : Cursor V)
  (w : World) r conn :
  connection c = Some r ->
  conns w !! r = Some conn ->
  Cursor.is_connected (c, w) =
    ((Connection.is_connected r w).1, (c, (Connection.is_connected r w).2)) ∧
  Cursor.is_connected (Cursor.close (c, w)).2 =
    (Ok false, (Cursor.close (c, w)).2) ∧
  Cursor.is_connected (c, (Connection.close r w).2) =
    (Ok false, (c, (Connection.close r w).2)).
Proof.
  intros Hc Hr.
  assert (Hd : ∀ w0, Cursor.is_connected (c, w0) =
                     ((Connection.is_connected r w0).1,
                      (c, (Connection.is_connected r w0).2))).
  { intros w0. unfold Cursor.is_connected. unfold_M. rewrite Hc. cbn.
    destruct (Connection.is_connected r w0). reflexivity. }
  split; [apply Hd|]. split.
  - unfold Cursor.close, Cursor.is_connected. unfold_M. rewrite Hc. reflexivity.
  - rewrite Hd.
    assert (Hw : conns (Connection.close r w).2 !! r = Some (set_sess None conn)).
    { cbn. rewrite lookup_alter_eq, Hr. reflexivity. }
    rewrite (is_connected_closed _ _ _ Hw); reflexivity.
Qed.

Lemma connect_new host port user password database protocol
  version (w : World) :
  ∃ r conn,
    connect host port user password database protocol version w =
      (Ok r, mkWorld (<[r := conn]> (conns w)) (sent w)) ∧
    conns w !! r = None ∧
    _sess conn = Some (mkSession (credentials user password) json_headers) ∧
    _database conn = database ∧
    autocommit conn = true ∧
    _url conn =
      protocol ++ "://" ++ py_or (PyStr.eqb "") host "localhost" ++ ":"
      ++ PyStr.str_of_int (py_or (Z.eqb 0) port 3306)
      ++ "/api/" ++ version ++ "/".
Proof.
  eexists _, _. split; [reflexivity|]. split.
  { apply not_elem_of_dom, is_fresh. }
  cbn. split.
  { unfold credentials. destruct user, password; reflexivity. }
  split; [reflexivity|]. split; [reflexivity|].
  unfold py_or. destruct host as [[|a h]|], port as [[|n|n]|]; reflexivity.
Qed.

(** X17.  [connect] never fails and sends nothing: it adds one open
    connection, with autocommit on, under a reference that was free.  The
    session has credentials only when a user is given, with the empty
    password when none is given.  The base URL is
    [protocol://host:port/api/version/], with [localhost] for a missing or
    empty host and 3306 for a missing or zero port. *)
Theorem connect_opens_fresh host port user password database protocol
  version (w : World) :
  ∃ r conn,
    connect host port user password database protocol version w =
      (Ok r, mkWorld (<[r := conn]> (conns w)) (sent w)) ∧
    conns w !! r = None ∧
    _sess conn = Some (mkSession (credentials user password) json_headers) ∧
    _database conn = database ∧
    autocommit conn = true ∧
    _url conn =
      protocol ++ "://" ++ py_or (PyStr.eqb "") host "localhost" ++ ":"
      ++ PyStr.str_of_int (py_or (Z.eqb 0) port 3306)
      ++ "/api/" ++ version ++ "/".
Proof. apply connect_new. Qed.

(** X18.  The probe of a connection just built by [connect], for a
    protocol and a host free of slashes, is one GET to
    [protocol://host:port/ping] with the defaults of the constructor
    applied and with the credentials of the session; neither the API
    version nor the database shows in it. *)
Theorem connect_probe {V : Type} `{!Env V} host port user password database
  protocol version (w : World) :
  PyStr.contains 47%N protocol = false ->
  PyStr.contains 47%N (py_or (PyStr.eqb "") host "localhost") = false ->
  ∃ r w', connect host port user password database protocol version w =
            (Ok r, w') ∧
          sent (Connection.is_connected r w').2 =
          sent w ++
          [mkRequest GET
             (protocol ++ "://" ++ py_or (PyStr.eqb "") host "localhost"
              ++ ":" ++ PyStr.str_of_int (py_or (Z.eqb 0) port 3306)
              ++ "/ping")
             (credentials user password) json_headers None].
Proof.
  intros Hp Hh.
  destruct (connect_new host port user password database protocol
              version w) as (r & conn & Hc & _ & Hs & _ & _ & Hu).
  exists r, (mkWorld (<[r := conn]> (conns w)) (sent w)).
  split; [exact Hc|].
  unfold Connection.is_connected, Connection.deref, Connection.request.
  unfold_M. rewrite lookup_insert_eq. cbn. rewrite Hs. cbn.
  rewrite (ping_url_of_base _ _ _ _ _ Hu Hp Hh).
  match goal with |- context [transport ?h] => destruct (transport h) end;
    cbn; [destruct (_ && _)|]; reflexivity.
Qed.

(** X19.  The body of the request of [execute] has the statement under
    [sql]; it has [args] exactly when parameters are given, and
    [database] exactly when the connection has a database name that is
    not empty. *)
Theorem request_data_members (database : option str) (query : str)
  (params : option json) :
  let data := Cursor.request_data database query params in
  PyJson.getitem data "sql" = Ok (JStr query) ∧
  PyJson.getitem data "args" =
    match params with
    | Some a => Ok a
    | None => Raise KeyError
    end ∧
  PyJson.getitem data "database" =
    match database with
    | Some db => if PyStr.eqb db "" then Raise KeyError else Ok (JStr db)
    | None => Raise KeyError
    end.
Proof.
  cbv zeta. unfold Cursor.request_data.
  destruct params as [a|], database as [db|]; cbn;
    try destruct (PyStr.eqb db ""); cbn; done.
Qed.

(** X20.  A cursor used in a [with] statement has lost its connection
    reference when the block is left, by return or by exception, and the
    outcome of the block is unchanged; a connection used in a [with]
    statement is closed the same way. *)
Theorem with_closes {V : Type} {A : Type} (body : M (CState V) A)
  (s : CState V) (r : nat) (wbody : M World A) (w : World) :
  with_ Cursor.__enter__ Cursor.__exit__ body s =
    ((body s).1, (set_connection None (body s).2.1, (body s).2.2)) ∧
  with_ (Connection.__enter__ r) (Connection.__exit__ r) wbody w =
    ((wbody w).1, (Connection.close r (wbody w).2).2).
Proof.
  split.
  - unfold with_, Cursor.__enter__, Cursor.__exit__, Cursor.close. unfold_M.
    destruct (body s) as [[a|e] [c1 w1]]; cbn;
      destruct (connection c1) eqn:Hc; cbn; try reflexivity;
      destruct c1; cbn in *; subst; reflexivity.
  - unfold with_, Connection.__enter__, Connection.__exit__. unfold_M.
    destruct (wbody w) as [[a|e] w1]; reflexivity.
Qed.


Lemma plain_opened (c : Cursor json) :
  connection c = Some 0%nat -> @opened json c Demo.world Demo.conn Demo.session.
Proof. intros H. exists 0%nat. split; [exact H|]. split; reflexivity. Qed.

(** [execute_undecoded_keeps_cursor] at the demo server. *)
Lemma execute_undecoded_keeps_cursor_witness :
  @opened json Demo.cur3 Demo.world Demo.conn Demo.session ∧
  @Cursor.execute json Plain.env "select a from t" None
    (Demo.cur3, Demo.world) =
  (Raise JSONDecodeError,
   (Demo.cur3,
    after_request
      (@request_of json Plain.env Demo.conn Demo.session "select a from t" None)
      Demo.world)).
Proof.
  split; [apply plain_opened; reflexivity|].
  apply (proj2 (@execute_undecoded_keeps_cursor json Plain.env
                  "select a from t" None Demo.cur3 Demo.world Demo.conn
                  Demo.session (plain_opened Demo.cur3 eq_refl))
           (mkResponse 200 "OK" None)); [reflexivity|cbn; lia|reflexivity].
Defined.

(** [execute_payload_error_resets] at the demo server. *)
Lemma execute_payload_error_resets_witness :
  let res := mkResponse 200 "" (Some (JObj [("rowsAffected", JInt 7)])) in
  let c' := set_description (Some []) (reset Demo.cur3) in
  let w' := after_request
              (request_of Demo.conn Demo.session "select 1" None)
              Demo.world in
  answered "select 1" None Demo.cur3 Demo.world Demo.conn Demo.session res ∧
  status_code res < 400 ∧
  Cursor.execute "select 1" None (Demo.cur3, Demo.world) =
    (Raise KeyError, (c', w')) ∧
  rowcount c' = JInt 0 ∧ is_Some (description c').
Proof.
  cbv zeta.
  assert (Ha : answered "select 1" None Demo.cur3 Demo.world Demo.conn
                 Demo.session
                 (mkResponse 200 "" (Some (JObj [("rowsAffected", JInt 7)])))).
  { split; [apply demo_opened|]; reflexivity. }
  assert (He : Cursor.execute "select 1" None (Demo.cur3, Demo.world) =
               (Raise KeyError,
                (set_description (Some []) (reset Demo.cur3),
                 after_request
                   (request_of Demo.conn Demo.session "select 1" None)
                   Demo.world))) by reflexivity.
  split; [exact Ha|]. split; [cbn; lia|]. split; [exact He|].
  exact (execute_payload_error_resets "select 1" None Demo.cur3 Demo.world
           Demo.conn Demo.session _ _ KeyError _ _ Ha ltac:(cbn; lia)
           eq_refl He).
Defined.

Lemma demo_query_ok :
  Cursor.execute "select a from t" None (Demo.cur, Demo.world) =
  (Ok tt, (Demo.cur3,
           after_request
             (request_of Demo.conn Demo.session "select a from t" None)
             Demo.world)).
Proof. reflexivity. Qed.

(** [rownumber_counts_fetched] at the demo server. *)
Lemma rownumber_counts_fetched_witness :
  Cursor.execute "select a from t" None (Demo.cur, Demo.world) =
  (Ok tt, (Demo.cur3,
           after_request
             (request_of Demo.conn Demo.session "select a from t" None)
             Demo.world)) ∧
  ∃ k, rowcount Demo.cur3 = JInt k ∧
  (Cursor.rownumber
     (fetchone_times 2
        (Demo.cur3,
         after_request
           (request_of Demo.conn Demo.session "select a from t" None)
           Demo.world)).2).1 = Ok (NInt (Z.min 2 k)).
Proof.
  split; [exact demo_query_ok|].
  exact (rownumber_counts_fetched "select a from t" None Demo.cur Demo.world
           _ _ 2%nat demo_query_ok).
Defined.

(** [description_until_exhausted] at the demo server. *)
Lemma description_until_exhausted_witness :
  is_query_type "select a from t" = true ∧
  Cursor.execute "select a from t" None (Demo.cur, Demo.world) =
  (Ok tt, (Demo.cur3,
           after_request
             (request_of Demo.conn Demo.session "select a from t" None)
             Demo.world)) ∧
  is_Some (description Demo.cur3).
Proof.
  split; [reflexivity|]. split; [exact demo_query_ok|].
  exact (proj1 (description_until_exhausted "select a from t" None Demo.cur
                  Demo.world _ _ eq_refl demo_query_ok)).
Defined.

(** [fetchmany_nonpositive] at the demo server. *)
Lemma fetchmany_nonpositive_witness :
  arraysize Plain.cur0 <= 0 ∧
  Cursor.fetchmany None (Plain.cur0, Demo.world) =
  (Ok [], (Plain.cur0, Demo.world)).
Proof.
  split; [cbn; lia|].
  apply (fetchmany_nonpositive None Plain.cur0 Demo.world);
    [cbn; lia|discriminate].
Defined.


(** [commit_rollback_need_autocommit] at the demo server. *)
Lemma commit_rollback_need_autocommit_witness :
  conns Demo.world !! 0%nat = Some Demo.conn ∧
  Connection.commit 0%nat Demo.world = (Ok tt, Demo.world).
Proof.
  split; [reflexivity|].
  exact (proj1 (commit_rollback_need_autocommit 0%nat Demo.world Demo.conn
                  eq_refl)).
Defined.


(** [connection_close_effects] at the demo server. *)
Lemma connection_close_effects_witness :
  conns Demo.world !! 0%nat = Some Demo.conn ∧
  Connection._post 0%nat "exec" JNull (Connection.close 0%nat Demo.world).2 =
  (Raise connection_closed, (Connection.close 0%nat Demo.world).2).
Proof.
  split; [reflexivity|].
  exact (proj1 (proj2 (proj2 (proj2 (proj2 (proj2 (proj2
           (connection_close_effects 0%nat Demo.world Demo.conn "exec" JNull
              false eq_refl)))))))).
Defined.

(** [cursor_is_connected_delegates] at the demo server. *)
Lemma cursor_is_connected_delegates_witness :
  connection Demo.cur = Some 0%nat ∧
  conns Demo.world !! 0%nat = Some Demo.conn ∧
  Cursor.is_connected (Cursor.close (Demo.cur, Demo.world)).2 =
  (Ok false, (Cursor.close (Demo.cur, Demo.world)).2).
Proof.
  split; [reflexivity|]. split; [reflexivity|].
  exact (proj1 (proj2 (cursor_is_connected_delegates Demo.cur Demo.world
                         0%nat Demo.conn eq_refl eq_refl))).
Defined.

(** [connect_probe] at the demo server. *)
Lemma connect_probe_witness :
  PyStr.contains 47%N "https" = false ∧
  PyStr.contains 47%N (py_or (PyStr.eqb "") (Some "db.example.com") "localhost")
    = false ∧
  ∃ r w', connect (Some "db.example.com") None (Some "user") None None
            "https" "v1" Demo.world = (Ok r, w') ∧
          sent (Connection.is_connected r w').2 =
          [mkRequest GET "https://db.example.com:3306/ping"
             (Some ("user", "")) json_headers None].
Proof.
  split; [reflexivity|]. split; [reflexivity|].
  exact (connect_probe (Some "db.example.com") None (Some "user") None None
           "https" "v1" Demo.world eq_refl eq_refl).
Defined.

Lemma load_from_reset {V : Type} `{!Env V} sql out (c : Cursor V) w :
  Cursor.load sql out (c, w) = Cursor.load sql out (reset c, w).
Proof. reflexivity. Qed.

Lemma reset_same_settings {V : Type} (c1 c2 : Cursor V) :
  same_settings c1 c2 -> reset c1 = reset c2.
Proof.
  intros (Hc & Ha & Hm & Hl). unfold reset, set_rowcount, set_rows,
    set_description. cbn. rewrite Hc, Ha, Hm, Hl. reflexivity.
Qed.

(** X6.  Once the response has a status below 400 and decodes, what
    [execute] returns and the state it leaves do not depend on the
    previous description, buffer or [rowcount] of the cursor: two cursors
    with the same connection reference and settings end up equal. *)
Theorem execute_forgets_previous {V : Type} `{!Env V} q p (c1 c2 : Cursor V)
  w conn sess res out :
  same_settings c1 c2 ->
  answered q p c1 w conn sess res ->
  status_code res < 400 ->
  body_json res = Some out ->
  Cursor.execute q p (c2, w) = Cursor.execute q p (c1, w).
Proof.
  intros Hs Ha Hst Hb.
  assert (Ha2 : answered q p c2 w conn sess res).
  { destruct Ha as [(r & Hc & Hr & Hse) Ht]. split; [|exact Ht].
    exists r. destruct Hs as (Hc2 & _). rewrite Hc2. done. }
  rewrite (execute_answered _ _ _ _ _ _ _ Ha),
    (execute_answered _ _ _ _ _ _ _ Ha2).
  apply Z.leb_gt in Hst. rewrite Hst. unfold_M. rewrite Hb. cbn.
  rewrite (load_from_reset _ _ c1), (load_from_reset _ _ c2).
  rewrite (reset_same_settings _ _ Hs). reflexivity.
Qed.

(** [execute_forgets_previous] at the demo server. *)
Lemma execute_forgets_previous_witness :
  same_settings Demo.cur Demo.cur3 ∧
  Cursor.execute "select a from t" None (Demo.cur3, Demo.world) =
  Cursor.execute "select a from t" None (Demo.cur, Demo.world).
Proof.
  assert (Hs : same_settings Demo.cur Demo.cur3) by (repeat split).
  split; [exact Hs|].
  eapply (execute_forgets_previous "select a from t" None Demo.cur Demo.cur3
            Demo.world Demo.conn Demo.session _ _ Hs).
  - split; [apply demo_opened|]; reflexivity.
  - cbn. lia.
  - reflexivity.
Defined.

(** X10.  [fetchone], [fetchmany] and [fetchall] never send a request
    or change the world, and they keep [rowcount], the connection
    reference, [arraysize], [messages] and [lastrowid]. *)
Theorem fetch_keeps_rowcount {V : Type} (size : option Z) (c : Cursor V)
  (w : World) :
  let keeps (s' : CState V) :=
    s'.2 = w ∧ rowcount s'.1 = rowcount c ∧ same_settings c s'.1 in
  keeps (Cursor.fetchone (c, w)).2 ∧
  keeps (Cursor.fetchmany size (c, w)).2 ∧
  keeps (Cursor.fetchall (c, w)).2.
Proof.
  cbv zeta. split; [|split].
  - unfold Cursor.fetchone. unfold_M. destruct (_rows c); repeat split.
  - rewrite fetchmany_until. unfold fetched.
    destruct (0 <? _); destruct (after_none (_rows c)); repeat split.
  - rewrite fetchall_until. unfold fetched.
    destruct (after_none (_rows c)); repeat split.
Qed.
